(** * Spending planner: the daily-allowance engine and its store

    A shallow embedding of the budgeting application's logic:

    - the [Date] arithmetic of the JavaScript runtime that the page relies
      on ([new Date(y, m, d)], [getDate], [setHours(0,0,0,0)], comparison),
      following the definitions of ECMA-262, section 21.4.1;
    - [getDaysInMonth], [formatDateKey] and the [spendingData] computation
      of the page component (the spec's [computeAllowances]);
    - the server functions of [features/spending.ts] over the two tables of
      the schema ([spending_plans], [daily_spending]).

    Modelling conventions.

    - Integers of the program (years, months, day numbers, row ids, time
      values in milliseconds) are [Z].
    - Time values are local-time values: every [Date] operation of the
      program works in local time, and the zone offset is taken constant, so
      the clock reading [now] is given in local milliseconds.
    - Amounts of money are JavaScript numbers in the program, that is IEEE
      754 binary64 values.  They are modelled by [number], the Standard
      Library's [spec_float] with the binary64 operations of [SpecFloat]:
      every operation rounds to nearest, ties to even, overflows to an
      infinity, underflows gradually to a signed zero, and [NaN] is one
      value.
    - Text is a string of bytes, the UTF-8 encoding of the program's text.
    - The database is PostgreSQL behind the query builder.  A table is the
      list of its rows, a statement is one step on the tables that either
      fails and leaves them as they were or succeeds, and the input
      conversions of the column types ([numeric(12,2)], [date]) are
      parameters of the store; [Postgres] gives the two conversions for the
      texts the page sends. *)

From Stdlib Require Import ZArith Lia Bool List.
From Stdlib Require Import Ascii String DecimalString.
From Stdlib Require Import SpecFloat.
From stdpp Require Import gmap strings list.

Local Open Scope Z_scope.

(** ** Date arithmetic (ECMA-262, 21.4.1) *)

Module JSDate.

Definition msPerDay : Z := 86400000.

(** [Day(t) = floor(t / msPerDay)] *)
Definition Day (t : Z) : Z := t / msPerDay.

Definition TimeWithinDay (t : Z) : Z := t mod msPerDay.

Definition DaysInYear (y : Z) : Z :=
  if negb (y mod 4 =? 0) then 365
  else if negb (y mod 100 =? 0) then 366
  else if negb (y mod 400 =? 0) then 365
  else 366.

Definition DayFromYear (y : Z) : Z :=
  365 * (y - 1970) + (y - 1969) / 4 - (y - 1901) / 100 + (y - 1601) / 400.

Definition TimeFromYear (y : Z) : Z := msPerDay * DayFromYear y.

(** The standard defines [YearFromTime(t)] as the largest [y] with
    [TimeFromYear(y) <= t].  It is computed here from an estimate that is
    off by at most one year, and [YearFromTime_largest] below shows that the
    result is that largest [y]. *)
Definition YearFromDay (d : Z) : Z :=
  let y := 1970 + (400 * d) / 146097 in
  if DayFromYear (y + 1) <=? d then y + 1
  else if d <? DayFromYear y then y - 1
  else y.

Definition YearFromTime (t : Z) : Z := YearFromDay (Day t).

Definition InLeapYear (t : Z) : Z :=
  if DaysInYear (YearFromTime t) =? 365 then 0 else 1.

Definition DayWithinYear (t : Z) : Z := Day t - DayFromYear (YearFromTime t).

Definition MonthFromTime (t : Z) : Z :=
  let d := DayWithinYear t in
  let leap := InLeapYear t in
  if d <? 31 then 0
  else if d <? 59 + leap then 1
  else if d <? 90 + leap then 2
  else if d <? 120 + leap then 3
  else if d <? 151 + leap then 4
  else if d <? 181 + leap then 5
  else if d <? 212 + leap then 6
  else if d <? 243 + leap then 7
  else if d <? 273 + leap then 8
  else if d <? 304 + leap then 9
  else if d <? 334 + leap then 10
  else 11.

Definition DateFromTime (t : Z) : Z :=
  let d := DayWithinYear t in
  let leap := InLeapYear t in
  match MonthFromTime t with
  | 0 => d + 1
  | 1 => d - 30
  | 2 => d - 58 - leap
  | 3 => d - 89 - leap
  | 4 => d - 119 - leap
  | 5 => d - 150 - leap
  | 6 => d - 180 - leap
  | 7 => d - 211 - leap
  | 8 => d - 242 - leap
  | 9 => d - 272 - leap
  | 10 => d - 303 - leap
  | _ => d - 333 - leap
  end.

(** Number of days between the first of January and the first of month [mn]
    (0-based) of a year with [leap] extra days. *)
Definition monthStart (mn leap : Z) : Z :=
  match mn with
  | 0 => 0
  | 1 => 31
  | 2 => 59 + leap
  | 3 => 90 + leap
  | 4 => 120 + leap
  | 5 => 151 + leap
  | 6 => 181 + leap
  | 7 => 212 + leap
  | 8 => 243 + leap
  | 9 => 273 + leap
  | 10 => 304 + leap
  | _ => 334 + leap
  end.

(** [MakeDay(year, month, date)]: the day number of the first of month
    [month mod 12] of year [year + floor(month / 12)], plus [date - 1].
    The standard asks for a time with that year, that month and date 1;
    [MakeDay_first_of_month] below shows that this is one. *)
Definition MakeDay (year month date : Z) : Z :=
  let ym := year + month / 12 in
  let mn := month mod 12 in
  let leap := if DaysInYear ym =? 365 then 0 else 1 in
  DayFromYear ym + monthStart mn leap + date - 1.

Definition MakeTime (hour min sec ms : Z) : Z :=
  hour * 3600000 + min * 60000 + sec * 1000 + ms.

Definition MakeDate (day time : Z) : Z := day * msPerDay + time.

(** Years 0 to 99 given to the constructor mean 1900 to 1999. *)
Definition MakeFullYear (y : Z) : Z :=
  if (0 <=? y) && (y <=? 99) then 1900 + y else y.

(** [new Date(year, month, day)] *)
Definition newDate (year month day : Z) : Z :=
  MakeDate (MakeDay (MakeFullYear year) month day) (MakeTime 0 0 0 0).

(** [date.getDate()] *)
Definition getDate (t : Z) : Z := DateFromTime t.

(** [date.setHours(0, 0, 0, 0)], returning the new time value *)
Definition setHours0 (t : Z) : Z := MakeDate (Day t) (MakeTime 0 0 0 0).

End JSDate.

Import JSDate.

(** [getDaysInMonth]: the date of day 0 of the next month. *)
Definition getDaysInMonth (year month : Z) : Z :=
  getDate (newDate year (month + 1) 0).

(** The calendar's own rule, for comparison with [getDaysInMonth]: leap
    years are the multiples of 4 that are not multiples of 100, and the
    multiples of 400. *)
Definition isLeapYear (y : Z) : bool :=
  (y mod 4 =? 0) && (negb (y mod 100 =? 0) || (y mod 400 =? 0)).

(** Days of month [m] (0 = January) of year [y], by the table. *)
Definition calendarDaysInMonth (y m : Z) : Z :=
  match m with
  | 0 | 2 | 4 | 6 | 7 | 9 | 11 => 31
  | 3 | 5 | 8 | 10 => 30
  | 1 => if isLeapYear y then 29 else 28
  | _ => 0
  end.

(** ** Numbers

    A JavaScript number is an IEEE 754 binary64 value.  [number] is
    [spec_float]: the two zeros, the two infinities, one [NaN], and the
    finite values [(-1)^s * m * 2^e]; the arithmetic is that of [SpecFloat]
    at [prec = 53] and [emax = 1024]. *)

Definition number : Type := spec_float.

Module Number.

Definition prec : Z := 53.
Definition emax : Z := 1024.

Definition NaN : number := S754_nan.
Definition Infinity (negative : bool) : number := S754_infinity negative.
Definition zero : number := S754_zero false.

(** The Number value of an integer: the integer itself up to [2^53], the
    nearest binary64 value beyond. *)
Definition ofZ (n : Z) : number := binary_normalize prec emax n 0 false.

(** The Number value of the ratio [n / d] of two positive integers: the
    quotient is taken with the bits the format holds and a remainder, and
    rounded once. *)
Definition ofRatio (n d : positive) : number :=
  let '(m, e, l) := SFdiv_core_binary prec emax (Zpos n) 0 (Zpos d) 0 in
  binary_round_aux prec emax false m e l.

(** The Number value of [m * 10 ^ e], for [m] not negative *)
Definition ofDecimal (m e : Z) : number :=
  match m with
  | Zpos p =>
      if 0 <=? e then ofZ (m * 10 ^ e)
      else ofRatio p (Z.to_pos (10 ^ (- e)))
  | _ => zero
  end.

Definition neg (x : number) : number := SFopp x.
Definition add (x y : number) : number := SFadd prec emax x y.
Definition sub (x y : number) : number := SFsub prec emax x y.
Definition mul (x y : number) : number := SFmul prec emax x y.
Definition div (x y : number) : number := SFdiv prec emax x y.

(** [ToBoolean]: the zeros and [NaN] are the falsy numbers. *)
Definition toBoolean (x : number) : bool :=
  match x with
  | S754_nan | S754_zero _ => false
  | _ => true
  end.

(** [x || y] on numbers *)
Definition or (x y : number) : number := if toBoolean x then x else y.

(** [x ?? y] for a property that may be absent *)
Definition nullish (x : option number) (y : number) : number :=
  match x with Some v => v | None => y end.

Definition isFinite (x : number) : bool :=
  match x with
  | S754_zero _ | S754_finite _ _ _ => true
  | _ => false
  end.





End Number.

(** ** Text: [parseFloat], [String], [padStart], [formatDateKey] *)

(** White space and line terminators ([WhiteSpace] and [LineTerminator] of
    ECMA-262): those of one byte, and the two- and three-byte encodings of
    U+00A0, U+1680, U+2000 to U+200A, U+2028, U+2029, U+202F, U+205F,
    U+3000 and U+FEFF. *)
Definition isWhiteSpace (c : ascii) : bool :=
  let n := Z.of_N (N_of_ascii c) in
  ((9 <=? n) && (n <=? 13)) || (n =? 32).

Definition isWhiteSpace2 (c1 c2 : ascii) : bool :=
  let a := Z.of_N (N_of_ascii c1) in
  let b := Z.of_N (N_of_ascii c2) in
  (a =? 194) && (b =? 160).

Definition isWhiteSpace3 (c1 c2 c3 : ascii) : bool :=
  let a := Z.of_N (N_of_ascii c1) in
  let b := Z.of_N (N_of_ascii c2) in
  let c := Z.of_N (N_of_ascii c3) in
  ((a =? 225) && (b =? 154) && (c =? 128)) ||
  ((a =? 226) && (b =? 128) &&
   (((128 <=? c) && (c <=? 138)) || (c =? 168) || (c =? 169) || (c =? 175))) ||
  ((a =? 226) && (b =? 129) && (c =? 159)) ||
  ((a =? 227) && (b =? 128) && (c =? 128)) ||
  ((a =? 239) && (b =? 187) && (c =? 191)).

Fixpoint trimStart (s : string) : string :=
  match s with
  | String c1 r1 =>
      if isWhiteSpace c1 then trimStart r1
      else
        match r1 with
        | String c2 r2 =>
            if isWhiteSpace2 c1 c2 then trimStart r2
            else
              match r2 with
              | String c3 r3 =>
                  if isWhiteSpace3 c1 c2 c3 then trimStart r3 else s
              | EmptyString => s
              end
        | EmptyString => s
        end
  | EmptyString => s
  end.

Definition digitValue (c : ascii) : option Z :=
  let n := Z.of_N (N_of_ascii c) in
  if (48 <=? n) && (n <=? 57) then Some (n - 48) else None.

(** Reads the longest run of decimal digits at the start of [s]: its value
    on top of [acc], the number of digits read on top of [count], and the
    rest of the text. *)
Fixpoint readDigits (s : string) (acc count : Z) : Z * Z * string :=
  match s with
  | String c r =>
      match digitValue c with
      | Some d => readDigits r (10 * acc + d) (count + 1)
      | None => (acc, count, s)
      end
  | EmptyString => (acc, count, s)
  end.

(** [ExponentPart]: [e] or [E], an optional sign, at least one digit.  The
    exponent is 0 when no exponent part starts [s]. *)
Definition readExponent (s : string) : Z :=
  match s with
  | String c r =>
      if (Ascii.eqb c "e" || Ascii.eqb c "E")%bool then
        match r with
        | String "-" r' =>
            let '(e, n, _) := readDigits r' 0 0 in if n =? 0 then 0 else - e
        | String "+" r' =>
            let '(e, n, _) := readDigits r' 0 0 in if n =? 0 then 0 else e
        | _ =>
            let '(e, n, _) := readDigits r 0 0 in if n =? 0 then 0 else e
        end
      else 0
  | EmptyString => 0
  end.

(** The value of the longest prefix of [s] that is a
    [StrUnsignedDecimalLiteral]; [NaN] when there is none.  The digits and
    the exponent give a decimal [m * 10 ^ e], and the result is its Number
    value. *)
Definition parseUnsigned (s : string) : number :=
  if String.prefix "Infinity" s then Number.Infinity false
  else
    let '(ip, ic, r1) := readDigits s 0 0 in
    let '(fp, fc, r2) :=
      match r1 with
      | String "." r => readDigits r 0 0
      | _ => (0, 0, r1)
      end in
    if (ic =? 0) && (fc =? 0) then Number.NaN
    else Number.ofDecimal (ip * 10 ^ fc + fp) (readExponent r2 - fc).

(** [parseFloat(s)] *)
Definition parseFloat (s : string) : number :=
  match trimStart s with
  | String "-" r => Number.neg (parseUnsigned r)
  | String "+" r => parseUnsigned r
  | t => parseUnsigned t
  end.

(** [String(n)] for an integer [n] *)
Definition StringOfInt (n : Z) : string := NilZero.string_of_int (Z.to_int n).

Fixpoint repeatChar (n : nat) (c : ascii) : string :=
  match n with
  | O => EmptyString
  | S k => String c (repeatChar k c)
  end.

(** [s.padStart(targetLength, fill)] for a one-character [fill] *)
Definition padStart (targetLength : nat) (fill : ascii) (s : string) : string :=
  (repeatChar (targetLength - String.length s) fill ++ s)%string.

Definition formatDateKey (year month day : Z) : string :=
  let m := padStart 2 "0" (StringOfInt (month + 1)) in
  let d := padStart 2 "0" (StringOfInt day) in
  (StringOfInt year ++ "-" ++ m ++ "-" ++ d)%string.

(** ** The store: tables [spending_plans] and [daily_spending]

    A row holds what the database gives back for it: an amount is the text
    of the [numeric(12,2)] value, a date the text of the [date] value, a
    timestamp a time value.  The server functions pass text for amounts and
    dates, and the column type converts it or rejects it. *)

Module SpendingPlan.
Record row : Type := mk {
  id : Z;
  year : Z;
  month : Z;
  totalAmount : string;
  desiredSaving : string;
  createdAt : Z;
  updatedAt : Z
}.
End SpendingPlan.

Module DailySpending.
Record row : Type := mk {
  id : Z;
  planId : Z;
  date : string;
  spent : string;
  createdAt : Z;
  updatedAt : Z
}.
End DailySpending.

Module Store.

(** The two tables with their [serial] sequences. *)
Record db : Type := mkDb {
  spendingPlans : list SpendingPlan.row;
  dailySpending : list DailySpending.row;
  spendingPlansSeq : Z;
  dailySpendingSeq : Z
}.

Definition empty : db :=
  {| spendingPlans := []; dailySpending := [];
     spendingPlansSeq := 1; dailySpendingSeq := 1 |}.

Inductive dbError : Type :=
| InvalidText
| OutOfRange
| PrimaryKeyViolation
| UniqueViolation
| ForeignKeyViolation.

(** A statement either fails, leaving the tables as they were, or succeeds
    with a value and the new tables. *)
Inductive outcome (A : Type) : Type :=
| Failed (e : dbError)
| Done (a : A) (s : db).
Arguments Failed {A} e.
Arguments Done {A} a s.

(** The values of an [integer] or [serial] column *)
Definition isInteger (n : Z) : bool :=
  (-2147483648 <=? n) && (n <=? 2147483647).

Definition planHasKey (year month : Z) (p : SpendingPlan.row) : bool :=
  (SpendingPlan.year p =? year) && (SpendingPlan.month p =? month).

Definition entryHasKey (planId : Z) (date : string) (e : DailySpending.row) : bool :=
  (DailySpending.planId e =? planId) && String.eqb (DailySpending.date e) date.

(** [db.query.<table>.findFirst({ where })] *)
Definition findFirst {A : Type} (where_ : A -> bool) (rows : list A) : option A :=
  List.find where_ rows.

(** [db.query.<table>.findMany({ where })] *)
Definition findMany {A : Type} (where_ : A -> bool) (rows : list A) : list A :=
  List.filter where_ rows.

Definition setPlanSettings (totalAmount desiredSaving : string) (now : Z)
    (p : SpendingPlan.row) : SpendingPlan.row :=
  SpendingPlan.mk (SpendingPlan.id p) (SpendingPlan.year p) (SpendingPlan.month p)
    totalAmount desiredSaving (SpendingPlan.createdAt p) now.

Definition setEntrySpent (spent : string) (now : Z)
    (e : DailySpending.row) : DailySpending.row :=
  DailySpending.mk (DailySpending.id e) (DailySpending.planId e)
    (DailySpending.date e) spent (DailySpending.createdAt e) now.

(** [db.update(table).set(...).where(...)]: the rows that match are
    replaced where they stand. *)
Definition updateWhere {A : Type} (where_ : A -> bool) (set : A -> A)
    (rows : list A) : list A :=
  List.map (fun r => if where_ r then set r else r) rows.

(** [.returning()] of an update: the rows that matched, as updated *)
Definition returning {A : Type} (where_ : A -> bool) (set : A -> A)
    (rows : list A) : list A :=
  List.map set (List.filter where_ rows).

Section Columns.

(** The input conversion of a [numeric(12,2)] column: the text of the value
    the column holds for a text passed to it, or nothing where the database
    rejects the text or the value. *)
Variable numericIn : string -> option string.

(** The input conversion of a [date] column, at the time of the statement
    (some date texts are read relative to the clock). *)
Variable dateIn : Z -> string -> option string.

(** [db.insert(spendingPlans).values({...}).returning()]: the row gets the
    next [id] of the sequence and the time of the statement in both
    timestamps; the values are converted, and the primary key and
    [UNIQUE(year, month)] are checked. *)
Definition insertPlan (now year month : Z) (totalAmount desiredSaving : string)
    (s : db) : outcome (list SpendingPlan.row) :=
  if negb (isInteger (spendingPlansSeq s) && isInteger year && isInteger month)
  then Failed OutOfRange
  else
    match numericIn totalAmount, numericIn desiredSaving with
    | Some total, Some saving =>
        let r := SpendingPlan.mk (spendingPlansSeq s) year month total saving now now in
        if existsb (fun p => SpendingPlan.id p =? SpendingPlan.id r) (spendingPlans s)
        then Failed PrimaryKeyViolation
        else if existsb (planHasKey year month) (spendingPlans s)
        then Failed UniqueViolation
        else Done [r]
               {| spendingPlans := spendingPlans s ++ [r];
                  dailySpending := dailySpending s;
                  spendingPlansSeq := spendingPlansSeq s + 1;
                  dailySpendingSeq := dailySpendingSeq s |}
    | _, _ => Failed InvalidText
    end.

(** [db.insert(dailySpending).values({...}).returning()]: as above, with
    the reference to [spending_plans(id)] and [UNIQUE(plan_id, date)]. *)
Definition insertEntry (now planId : Z) (date spent : string)
    (s : db) : outcome (list DailySpending.row) :=
  if negb (isInteger (dailySpendingSeq s) && isInteger planId)
  then Failed OutOfRange
  else
    match dateIn now date, numericIn spent with
    | Some d, Some v =>
        let r := DailySpending.mk (dailySpendingSeq s) planId d v now now in
        if existsb (fun e => DailySpending.id e =? DailySpending.id r) (dailySpending s)
        then Failed PrimaryKeyViolation
        else if negb (existsb (fun p => SpendingPlan.id p =? planId) (spendingPlans s))
        then Failed ForeignKeyViolation
        else if existsb (entryHasKey planId d) (dailySpending s)
        then Failed UniqueViolation
        else Done [r]
               {| spendingPlans := spendingPlans s;
                  dailySpending := dailySpending s ++ [r];
                  spendingPlansSeq := spendingPlansSeq s;
                  dailySpendingSeq := dailySpendingSeq s + 1 |}
    | _, _ => Failed InvalidText
    end.

(** [getOrCreatePlan({ year, month })] *)
Definition getOrCreatePlan (now year month : Z) (s : db)
    : outcome (option SpendingPlan.row) :=
  if negb (isInteger year && isInteger month) then Failed OutOfRange
  else
    match findFirst (planHasKey year month) (spendingPlans s) with
    | Some plan => Done (Some plan) s
    | None =>
        match insertPlan now year month "0" "0" s with
        | Failed e => Failed e
        | Done rows s' => Done (head rows) s'
        end
    end.

(** [updatePlanSettings({ planId, totalAmount, desiredSaving })] *)
Definition updatePlanSettings (now planId : Z) (totalAmount desiredSaving : string)
    (s : db) : outcome (option SpendingPlan.row) :=
  if negb (isInteger planId) then Failed OutOfRange
  else
    match numericIn totalAmount, numericIn desiredSaving with
    | Some total, Some saving =>
        let where_ := fun p => SpendingPlan.id p =? planId in
        let set := setPlanSettings total saving now in
        Done (head (returning where_ set (spendingPlans s)))
          {| spendingPlans := updateWhere where_ set (spendingPlans s);
             dailySpending := dailySpending s;
             spendingPlansSeq := spendingPlansSeq s;
             dailySpendingSeq := dailySpendingSeq s |}
    | _, _ => Failed InvalidText
    end.

(** [upsertDailySpending({ planId, date, spent })] *)
Definition upsertDailySpending (now planId : Z) (date spent : string)
    (s : db) : outcome (option DailySpending.row) :=
  if negb (isInteger planId) then Failed OutOfRange
  else
    match dateIn now date with
    | None => Failed InvalidText
    | Some d =>
        match findFirst (entryHasKey planId d) (dailySpending s) with
        | Some existing =>
            match numericIn spent with
            | None => Failed InvalidText
            | Some v =>
                let where_ := fun e => DailySpending.id e =? DailySpending.id existing in
                let set := setEntrySpent v now in
                Done (head (returning where_ set (dailySpending s)))
                  {| spendingPlans := spendingPlans s;
                     dailySpending := updateWhere where_ set (dailySpending s);
                     spendingPlansSeq := spendingPlansSeq s;
                     dailySpendingSeq := dailySpendingSeq s |}
            end
        | None =>
            match insertEntry now planId date spent s with
            | Failed e => Failed e
            | Done rows s' => Done (head rows) s'
            end
        end
    end.

End Columns.

(** [getDailySpending({ planId })] *)
Definition getDailySpending (planId : Z) (s : db) : outcome (list DailySpending.row) :=
  if negb (isInteger planId) then Failed OutOfRange
  else Done (findMany (fun e => DailySpending.planId e =? planId) (dailySpending s)) s.

(** The keys of the schema: primary keys, [UNIQUE(year, month)] and
    [UNIQUE(plan_id, date)]. *)
Definition planKey (p : SpendingPlan.row) : Z * Z :=
  (SpendingPlan.year p, SpendingPlan.month p).

Definition entryKey (e : DailySpending.row) : Z * string :=
  (DailySpending.planId e, DailySpending.date e).

Record uniqueKeys (s : db) : Prop := {
  plan_ids : NoDup (List.map SpendingPlan.id (spendingPlans s));
  plan_keys : NoDup (List.map planKey (spendingPlans s));
  entry_ids : NoDup (List.map DailySpending.id (dailySpending s));
  entry_keys : NoDup (List.map entryKey (dailySpending s))
}.

End Store.

(** ** The column types, for the texts the page sends

    The conversions of PostgreSQL for a [numeric(12,2)] and a [date] column,
    on decimal numerals and on dates written year-month-day.  These are the
    texts the page sends: the amount of a number field, or ['0'], and the
    date key of a day.  A text of another form is read as rejected. *)

Module Postgres.

(** [isspace] *)
Definition isSpace (c : ascii) : bool :=
  let n := Z.of_N (N_of_ascii c) in
  ((9 <=? n) && (n <=? 13)) || (n =? 32).

Fixpoint skipSpaces (s : string) : string :=
  match s with
  | String c r => if isSpace c then skipSpaces r else s
  | EmptyString => s
  end.

Definition isNaNText (s : string) : bool :=
  match s with
  | String a (String b (String c _)) =>
      (Ascii.eqb a "N" || Ascii.eqb a "n") &&
      (Ascii.eqb b "a" || Ascii.eqb b "A") &&
      (Ascii.eqb c "N" || Ascii.eqb c "n")
  | _ => false
  end.

(** An optional sign: whether it is [-], and what follows it. *)
Definition readSign (s : string) : bool * string :=
  match s with
  | String "-" r => (true, r)
  | String "+" r => (false, r)
  | _ => (false, s)
  end.

(** A decimal numeral without sign: digits with an optional point, at least
    one digit, and an optional exponent, which has at least one digit.  The
    numeral denotes [digits * 10 ^ (- scale)]; the rest of the text comes
    with it. *)
Definition readDecimal (s : string) : option (Z * Z * string) :=
  let '(ip, ic, r1) := readDigits s 0 0 in
  let '(fp, fc, r2) :=
    match r1 with
    | String "." r => readDigits r 0 0
    | _ => (0, 0, r1)
    end in
  if (ic =? 0) && (fc =? 0) then None
  else
    let digits := ip * 10 ^ fc + fp in
    match r2 with
    | String c r3 =>
        if (Ascii.eqb c "e" || Ascii.eqb c "E")%bool then
          let '(negative, r4) := readSign r3 in
          let '(e, ec, r5) := readDigits r4 0 0 in
          if (ec =? 0) || (1073741823 <? e) then None
          else Some (digits, fc - (if negative then - e else e), r5)
        else Some (digits, fc, r2)
    | EmptyString => Some (digits, fc, r2)
    end.

(** The hundredths in [digits * 10 ^ (- scale)], rounded half away from
    zero. *)
Definition hundredths (digits scale : Z) : Z :=
  if scale <=? 2 then digits * 10 ^ (2 - scale)
  else (2 * digits + 10 ^ (scale - 2)) / (2 * 10 ^ (scale - 2)).

(** The text of a value of so many hundredths: the units, a point and two
    decimals, after a [-] for a negative value. *)
Definition numericOut (negative : bool) (h : Z) : string :=
  ((if negative && negb (h =? 0)%Z then "-" else "") ++
   StringOfInt (h / 100)%Z ++ "." ++ padStart 2 "0" (StringOfInt (h mod 100)%Z))%string.

(** The conversion of [numeric(12,2)]: at most ten digits before the point
    after rounding to two decimals. *)
Definition numeric_12_2 (text : string) : option string :=
  let t := skipSpaces text in
  if isNaNText t then
    match t with
    | String _ (String _ (String _ r)) =>
        if String.eqb (skipSpaces r) "" then Some "NaN"%string else None
    | _ => None
    end
  else
    let '(negative, u) := readSign t in
    match readDecimal u with
    | Some (digits, scale, r) =>
        let h := hundredths digits scale in
        if negb (String.eqb (skipSpaces r) "") then None
        else if 10 ^ 12 <=? h then None
        else Some (numericOut negative h)
    | None => None
    end.

(** The conversion of [date] for a date written year-month-day, the year
    with three digits or more: the date of the calendar with the year on
    four digits and the month and the day on two. *)
Definition date (now : Z) (text : string) : option string :=
  let '(y, yc, r1) := readDigits (skipSpaces text) 0 0 in
  match r1 with
  | String "-" r2 =>
      let '(m, mc, r3) := readDigits r2 0 0 in
      match r3 with
      | String "-" r4 =>
          let '(d, dc, r5) := readDigits r4 0 0 in
          if (3 <=? yc) && (1 <=? mc) && (mc <=? 2) && (1 <=? dc) && (dc <=? 2) &&
             String.eqb (skipSpaces r5) "" &&
             (1 <=? y) && (y <=? 5874897) && (1 <=? m) && (m <=? 12) &&
             (1 <=? d) && (d <=? calendarDaysInMonth y (m - 1))
          then Some (padStart 4 "0" (StringOfInt y) ++ "-" ++
                     padStart 2 "0" (StringOfInt m) ++ "-" ++
                     padStart 2 "0" (StringOfInt d))%string
          else None
      | _ => None
      end
  | _ => None
  end.

End Postgres.

(** ** The page component: [spendingData] *)

Module DayAllowance.
Record t : Type := mk {
  date : Z;
  dateKey : string;
  formattedDate : string;
  allowedSpending : number;
  spent : number;
  isPast : bool;
  isToday : bool
}.
End DayAllowance.

Module SpendingData.
Record t : Type := mk {
  days : list DayAllowance.t;
  totalAmount : number;
  desiredSaving : number;
  availableMoney : number;
  baseDailyAllowance : number;
  rollover : number
}.
End SpendingData.

(** The variables the loop of [spendingData] assigns to. *)
Module Loop.
Record state : Type := mk {
  rollover : number;
  remainingDays : Z;
  days : list DayAllowance.t
}.
End Loop.

(** [totalInput || (plan ? String(plan.totalAmount) : '0')]: the empty
    text is the falsy string. *)
Definition displayTotal (totalInput : string) (plan : option SpendingPlan.row) : string :=
  if String.eqb totalInput "" then
    match plan with
    | Some p => SpendingPlan.totalAmount p
    | None => "0"
    end
  else totalInput.

Definition displaySaving (savingInput : string) (plan : option SpendingPlan.row) : string :=
  if String.eqb savingInput "" then
    match plan with
    | Some p => SpendingPlan.desiredSaving p
    | None => "0"
    end
  else savingInput.

(** [parseFloat(text) || 0] *)
Definition amountOf (text : string) : number :=
  Number.or (parseFloat text) Number.zero.

(** The map from date key to amount spent: the fetched rows first, then
    the local inputs, which override them. *)
Definition buildSpentMap (data : option (list DailySpending.row))
    (spentInputs : list (string * string)) : gmap string number :=
  let fromData :=
    match data with
    | Some rows =>
        fold_left
          (fun (spentMap : gmap string number) entry =>
             <[DailySpending.date entry := amountOf (DailySpending.spent entry)]> spentMap)
          rows ∅
    | None => ∅
    end in
  fold_left
    (fun (spentMap : gmap string number) '(dateKey, value) =>
       <[dateKey := amountOf value]> spentMap)
    spentInputs fromData.

Section Engine.

(** [formatDate] renders a date with the host's [Intl] facility; its text
    plays no part in the computation. *)
Variable formatDate : Z -> string.

(** One turn of the loop [for (let day = 1; day <= daysCount; day++)].
    The day numbers are small integers, on which the program's arithmetic
    is exact: [daysCount - day + 1] is computed in [Z] and used as the
    number it is. *)
Definition dayStep (year month daysCount : Z) (availableMoney : number)
    (spentMap : gmap string number) (today : Z)
    (st : Loop.state) (day : Z) : Loop.state :=
  let date := setHours0 (newDate year month day) in
  let dateKey := formatDateKey year month day in
  let isPast := date <? today in
  let isToday := date =? today in
  let spent := Number.nullish (spentMap !! dateKey) Number.zero in
  let daysFromHere := daysCount - day + 1 in
  let rollover :=
    if isPast then
      let baseDailyAllowance := Number.div availableMoney (Number.ofZ daysCount) in
      Number.add (Loop.rollover st) (Number.sub baseDailyAllowance spent)
    else Loop.rollover st in
  let remainingDays :=
    if isPast then Loop.remainingDays st - 1 else Loop.remainingDays st in
  let allowedSpending :=
    if isPast then Number.div availableMoney (Number.ofZ daysCount)
    else
      let remainingBudget :=
        Number.add
          (Number.mul (Number.div availableMoney (Number.ofZ daysCount))
             (Number.ofZ (daysCount - day + 1)))
          rollover in
      Number.div remainingBudget (Number.ofZ daysFromHere) in
  {| Loop.rollover := rollover;
     Loop.remainingDays := remainingDays;
     Loop.days :=
       Loop.days st ++
       [ {| DayAllowance.date := date;
            DayAllowance.dateKey := dateKey;
            DayAllowance.formattedDate := formatDate date;
            DayAllowance.allowedSpending := allowedSpending;
            DayAllowance.spent := spent;
            DayAllowance.isPast := isPast;
            DayAllowance.isToday := isToday |} ] |}.

(** The body of the [useMemo]: the spec's [computeAllowances].  [now] is
    the reading of the clock taken by [new Date()]. *)
Definition spendingData (year month : Z) (displayTotal displaySaving : string)
    (data : option (list DailySpending.row))
    (spentInputs : list (string * string)) (now : Z) : SpendingData.t :=
  let daysCount := getDaysInMonth year month in
  let totalAmount := amountOf displayTotal in
  let desiredSaving := amountOf displaySaving in
  let availableMoney := Number.sub totalAmount desiredSaving in
  let spentMap := buildSpentMap data spentInputs in
  let today := setHours0 now in
  let final :=
    fold_left (dayStep year month daysCount availableMoney spentMap today)
      (seqZ 1 daysCount)
      {| Loop.rollover := Number.zero; Loop.remainingDays := daysCount; Loop.days := [] |} in
  {| SpendingData.days := Loop.days final;
     SpendingData.totalAmount := totalAmount;
     SpendingData.desiredSaving := desiredSaving;
     SpendingData.availableMoney := availableMoney;
     SpendingData.baseDailyAllowance :=
       Number.div availableMoney (Number.ofZ daysCount);
     SpendingData.rollover := Loop.rollover final |}.

End Engine.

(** The engine's documented domain: a month index from 0 to 11 and a year
    all of whose days are time values a [Date] can hold (at most 10^8 days
    from the epoch on either side). *)
Definition validYearMonth (year month : Z) : Prop :=
  -271820 <= year <= 275759 /\ 0 <= month <= 11.

(** ** The quantities the specification speaks of *)

(** The date of day [day] of the month, as the loop computes it. *)
Definition dayDate (year month day : Z) : Z := setHours0 (newDate year month day).

(** A past day: its date is strictly earlier than [today]. *)
Definition isPastDay (year month today day : Z) : bool :=
  dayDate year month day <? today.

(** The amount spent on a day: 0 when the map has no entry for its key. *)
Definition spentOn (year month : Z) (spentMap : gmap string number) (day : Z) : number :=
  Number.nullish (spentMap !! formatDateKey year month day) Number.zero.

(** The past days among the first [k] days of the month, in calendar order. *)
Definition pastDays (year month today k : Z) : list Z :=
  List.filter (isPastDay year month today) (seqZ 1 k).

(** The specification's rollover: the sum over the past days, taken from
    the left in calendar order, of [base - spent]. *)
Definition rolloverOver (base : number) (spentOf : Z -> number) (ds : list Z) : number :=
  fold_left (fun acc day => Number.add acc (Number.sub base (spentOf day))) ds Number.zero.

(** The specification's allowance for today or a later day. *)
Definition redistributed (base rollover : number) (daysCount day : Z) : number :=
  let daysRemainingFromThisDayInclusive := daysCount - day + 1 in
  Number.div
    (Number.add (Number.mul base (Number.ofZ daysRemainingFromThisDayInclusive)) rollover)
    (Number.ofZ daysRemainingFromThisDayInclusive).

(** The text that decides the amount of [key] in a list of [(key, text)]
    assignments made in order: the last one for that key. *)
Fixpoint lastAssigned (key : string) (entries : list (string * string)) : option string :=
  match entries with
  | [] => None
  | (k, text) :: rest =>
      match lastAssigned key rest with
      | Some t => Some t
      | None => if String.eqb k key then Some text else None
      end
  end.

Definition entriesOf (data : option (list DailySpending.row)) : list (string * string) :=
  match data with
  | Some rows => List.map (fun e => (DailySpending.date e, DailySpending.spent e)) rows
  | None => []
  end.

(** The text that decides the amount spent under [key]: a local input if
    there is one, the fetched row otherwise. *)
Definition decidingText (data : option (list DailySpending.row))
    (spentInputs : list (string * string)) (key : string) : option string :=
  match lastAssigned key spentInputs with
  | Some text => Some text
  | None => lastAssigned key (entriesOf data)
  end.

(** What the loop records for day [day], given the rollover it holds once
    that day has been accounted for. *)
Definition describesDay (year month daysCount : Z) (base : number)
    (spentMap : gmap string number) (today : Z) (rollover : number) (day : Z)
    (row : DayAllowance.t) : Prop :=
  DayAllowance.date row = dayDate year month day /\
  DayAllowance.dateKey row = formatDateKey year month day /\
  DayAllowance.spent row = spentOn year month spentMap day /\
  DayAllowance.isPast row = isPastDay year month today day /\
  DayAllowance.isToday row = (dayDate year month day =? today) /\
  DayAllowance.allowedSpending row =
    if isPastDay year month today day then base
    else redistributed base rollover daysCount day.

(** * Properties *)

(** ** The calendar lemmas *)

Ltac divlia := Z.div_mod_to_equations; lia.

Lemma DayFromYear_succ y : DayFromYear (y + 1) = DayFromYear y + DaysInYear y.
Proof.
  unfold DayFromYear, DaysInYear.
  repeat match goal with |- context [?a =? ?b] => destruct (Z.eqb_spec a b); simpl end;
    divlia.
Qed.

Lemma DaysInYear_bounds y : 365 <= DaysInYear y <= 366.
Proof. unfold DaysInYear. repeat case_match; lia. Qed.

Lemma DayFromYear_mono a b : a <= b -> DayFromYear a <= DayFromYear b.
Proof. unfold DayFromYear. divlia. Qed.

Lemma DayFromYear_lt a b : a < b -> DayFromYear a < DayFromYear b.
Proof.
  intros H. pose proof (DayFromYear_mono (a + 1) b ltac:(lia)) as Hm.
  rewrite DayFromYear_succ in Hm. pose proof (DaysInYear_bounds a). lia.
Qed.

Lemma YearFromDay_bracket d :
  DayFromYear (YearFromDay d) <= d < DayFromYear (YearFromDay d + 1).
Proof.
  unfold YearFromDay.
  set (y := 1970 + 400 * d / 146097).
  assert (Hlo : DayFromYear (y - 1) <= d) by (unfold DayFromYear, y; divlia).
  assert (Hhi : d < DayFromYear (y + 2)) by (unfold DayFromYear, y; divlia).
  destruct (Z.leb_spec (DayFromYear (y + 1)) d).
  - replace (y + 1 + 1) with (y + 2) by lia. lia.
  - destruct (Z.ltb_spec d (DayFromYear y)).
    + replace (y - 1 + 1) with y by lia. lia.
    + lia.
Qed.

(** A day inside year [y] has [y] as its year. *)
Lemma YearFromDay_unique d y :
  DayFromYear y <= d < DayFromYear (y + 1) -> YearFromDay d = y.
Proof.
  intros [Hl Hh]. pose proof (YearFromDay_bracket d) as [Bl Bh].
  destruct (Z.lt_trichotomy (YearFromDay d) y) as [Hlt | [Heq | Hgt]]; [| exact Heq |].
  - pose proof (DayFromYear_mono (YearFromDay d + 1) y ltac:(lia)). lia.
  - pose proof (DayFromYear_mono (y + 1) (YearFromDay d) ltac:(lia)). lia.
Qed.

Lemma Day_MakeDate d : Day (MakeDate d (MakeTime 0 0 0 0)) = d.
Proof. unfold Day, MakeDate, MakeTime, msPerDay. divlia. Qed.

(** [YearFromTime] is the largest year that starts no later than [t]. *)
Lemma YearFromTime_largest t :
  TimeFromYear (YearFromTime t) <= t /\
  forall y, TimeFromYear y <= t -> y <= YearFromTime t.
Proof.
  unfold TimeFromYear, YearFromTime.
  pose proof (YearFromDay_bracket (Day t)) as [Bl Bh].
  assert (Hd : msPerDay * Day t <= t < msPerDay * (Day t + 1))
    by (unfold Day, msPerDay; divlia).
  split.
  - unfold msPerDay in *. lia.
  - intros y Hy.
    destruct (Z.le_gt_cases y (YearFromDay (Day t))) as [|Hgt]; [assumption|].
    pose proof (DayFromYear_mono (YearFromDay (Day t) + 1) y ltac:(lia)).
    unfold msPerDay in *. lia.
Qed.

(** Day [k] of year [y], as a time value at midnight. *)
Lemma YearFromTime_in_year y k :
  0 <= k < DaysInYear y ->
  YearFromTime (MakeDate (DayFromYear y + k) (MakeTime 0 0 0 0)) = y.
Proof.
  intros Hk. unfold YearFromTime. rewrite Day_MakeDate.
  apply YearFromDay_unique. rewrite DayFromYear_succ. lia.
Qed.

Lemma DayWithinYear_in_year y k :
  0 <= k < DaysInYear y ->
  DayWithinYear (MakeDate (DayFromYear y + k) (MakeTime 0 0 0 0)) = k.
Proof.
  intros Hk. unfold DayWithinYear.
  rewrite YearFromTime_in_year by assumption. rewrite Day_MakeDate. lia.
Qed.

Lemma DaysInYear_isLeapYear y :
  DaysInYear y = if isLeapYear y then 366 else 365.
Proof.
  unfold DaysInYear, isLeapYear.
  destruct (y mod 4 =? 0), (y mod 100 =? 0), (y mod 400 =? 0); reflexivity.
Qed.

(** The date of day [k] of year [y], read off the standard's tables. *)
Lemma DateFromTime_in_year y k :
  0 <= k < DaysInYear y ->
  DateFromTime (MakeDate (DayFromYear y + k) (MakeTime 0 0 0 0)) =
  let leap := if isLeapYear y then 1 else 0 in
  if k <? 31 then k + 1
  else if k <? 59 + leap then k - 30
  else if k <? 90 + leap then k - 58 - leap
  else if k <? 120 + leap then k - 89 - leap
  else if k <? 151 + leap then k - 119 - leap
  else if k <? 181 + leap then k - 150 - leap
  else if k <? 212 + leap then k - 180 - leap
  else if k <? 243 + leap then k - 211 - leap
  else if k <? 273 + leap then k - 242 - leap
  else if k <? 304 + leap then k - 272 - leap
  else if k <? 334 + leap then k - 303 - leap
  else k - 333 - leap.
Proof.
  intros Hk. unfold DateFromTime, MonthFromTime, InLeapYear.
  rewrite DayWithinYear_in_year, YearFromTime_in_year by assumption.
  rewrite DaysInYear_isLeapYear.
  destruct (isLeapYear y); cbn [Z.eqb Pos.eqb]; cbv zeta;
    repeat (match goal with
            | |- context [if ?a <? ?b then _ else _] => destruct (Z.ltb_spec a b)
            end; try reflexivity).
Qed.

Lemma MonthFromTime_in_year y k :
  0 <= k < DaysInYear y ->
  MonthFromTime (MakeDate (DayFromYear y + k) (MakeTime 0 0 0 0)) =
  let leap := if isLeapYear y then 1 else 0 in
  if k <? 31 then 0
  else if k <? 59 + leap then 1
  else if k <? 90 + leap then 2
  else if k <? 120 + leap then 3
  else if k <? 151 + leap then 4
  else if k <? 181 + leap then 5
  else if k <? 212 + leap then 6
  else if k <? 243 + leap then 7
  else if k <? 273 + leap then 8
  else if k <? 304 + leap then 9
  else if k <? 334 + leap then 10
  else 11.
Proof.
  intros Hk. unfold MonthFromTime, InLeapYear.
  rewrite DayWithinYear_in_year, YearFromTime_in_year by assumption.
  rewrite DaysInYear_isLeapYear.
  destruct (isLeapYear y); reflexivity.
Qed.

(** [MakeDay] is the day the standard asks for: day [date] of month
    [month mod 12] of year [year + floor(month / 12)] is [date - 1] days
    after a time whose year, month and date are that year, that month
    and 1. *)
Lemma MakeDay_first_of_month year month :
  let t := MakeDate (MakeDay year month 1) (MakeTime 0 0 0 0) in
  YearFromTime t = year + month / 12 /\
  MonthFromTime t = month mod 12 /\
  DateFromTime t = 1 /\
  forall date, MakeDay year month date = Day t + date - 1.
Proof.
  intros t. unfold t, MakeDay.
  set (ym := year + month / 12). set (mn := month mod 12).
  assert (Hmn : 0 <= mn < 12) by (unfold mn; divlia).
  pose proof (DaysInYear_isLeapYear ym) as Hleap. rewrite Hleap.
  assert (Hcases : mn = 0 \/ mn = 1 \/ mn = 2 \/ mn = 3 \/ mn = 4 \/ mn = 5 \/
                   mn = 6 \/ mn = 7 \/ mn = 8 \/ mn = 9 \/ mn = 10 \/ mn = 11) by lia.
  clearbody mn.
  assert (Hk : 0 <= monthStart mn (if isLeapYear ym then 1 else 0) < DaysInYear ym).
  { rewrite Hleap.
    repeat (destruct Hcases as [-> | Hcases]); try subst mn;
      destruct (isLeapYear ym);
      (split; [apply Z.leb_le | apply Z.ltb_lt]; reflexivity). }
  replace (if (if isLeapYear ym then 366 else 365) =? 365 then 0 else 1)
    with (if isLeapYear ym then 1 else 0) by (destruct (isLeapYear ym); reflexivity).
  set (k := monthStart mn (if isLeapYear ym then 1 else 0)) in *.
  replace (DayFromYear ym + k + 1 - 1) with (DayFromYear ym + k) by lia.
  rewrite YearFromTime_in_year, MonthFromTime_in_year, DateFromTime_in_year
    by exact Hk.
  rewrite Day_MakeDate.
  split; [reflexivity|].
  split; [|split; [|intros date; lia]]; unfold k;
    repeat (destruct Hcases as [-> | Hcases]); try subst mn;
    destruct (isLeapYear ym); reflexivity.
Qed.

(** The date of the day before the first of the next month, for a year the
    constructor takes as it is. *)
Lemma lastDayOfMonth y m :
  0 <= m <= 11 ->
  getDate (MakeDate (MakeDay y (m + 1) 0) (MakeTime 0 0 0 0)) =
  calendarDaysInMonth y m.
Proof.
  intros Hm. unfold getDate.
  pose proof (DaysInYear_isLeapYear y) as Hleap.
  assert (Hday : MakeDay y (m + 1) 0 =
                 DayFromYear y +
                 (if m =? 11 then DaysInYear y - 1
                  else monthStart (m + 1) (if isLeapYear y then 1 else 0) - 1)).
  { unfold MakeDay. destruct (Z.eqb_spec m 11) as [-> | Hne].
    - change ((11 + 1) / 12) with 1. change ((11 + 1) mod 12) with 0.
      rewrite DayFromYear_succ. simpl monthStart. lia.
    - replace ((m + 1) / 12) with 0 by divlia.
      replace ((m + 1) mod 12) with (m + 1) by divlia.
      rewrite !Z.add_0_r, Hleap. destruct (isLeapYear y); cbn [Z.eqb Pos.eqb]; lia. }
  rewrite Hday.
  assert (Hcases : m = 0 \/ m = 1 \/ m = 2 \/ m = 3 \/ m = 4 \/ m = 5 \/ m = 6 \/
                   m = 7 \/ m = 8 \/ m = 9 \/ m = 10 \/ m = 11) by lia.
  rewrite DateFromTime_in_year.
  - rewrite Hleap.
    repeat (destruct Hcases as [-> | Hcases]); try subst m;
      destruct (isLeapYear y) eqn:Hl; unfold calendarDaysInMonth; rewrite ?Hl;
      reflexivity.
  - rewrite Hleap.
    repeat (destruct Hcases as [-> | Hcases]); try subst m;
      destruct (isLeapYear y);
      (split; [apply Z.leb_le | apply Z.ltb_lt]; reflexivity).
Qed.

(** [getDaysInMonth] for a year the constructor takes as it is or maps into
    the twentieth century. *)
Lemma getDaysInMonth_fullYear year month :
  0 <= month <= 11 ->
  getDaysInMonth year month = calendarDaysInMonth (MakeFullYear year) month.
Proof. intros Hm. unfold getDaysInMonth, newDate. by apply lastDayOfMonth. Qed.

Lemma calendarDaysInMonth_bounds y m :
  0 <= m <= 11 -> 28 <= calendarDaysInMonth y m <= 31.
Proof.
  intros Hm.
  assert (Hcases : m = 0 \/ m = 1 \/ m = 2 \/ m = 3 \/ m = 4 \/ m = 5 \/ m = 6 \/
                   m = 7 \/ m = 8 \/ m = 9 \/ m = 10 \/ m = 11) by lia.
  repeat (destruct Hcases as [-> | Hcases]); try subst m;
    unfold calendarDaysInMonth; try destruct (isLeapYear y); lia.
Qed.

Lemma getDaysInMonth_bounds year month :
  0 <= month <= 11 -> 28 <= getDaysInMonth year month <= 31.
Proof.
  intros Hm. rewrite getDaysInMonth_fullYear by assumption.
  by apply calendarDaysInMonth_bounds.
Qed.

Lemma isLeapYear_twoDigit y : 1 <= y <= 99 -> isLeapYear (1900 + y) = isLeapYear y.
Proof.
  intros Hy. unfold isLeapYear.
  repeat match goal with
         | |- context [?a =? ?b] => destruct (Z.eqb_spec a b)
         end; simpl; try reflexivity; exfalso; divlia.
Qed.

(** C5. For a month index from 0 to 11 and a year of the range of [Date]
    from year 1 on, [getDaysInMonth] (the date of the day before the first
    of the next month) is the number of days of that month by the calendar
    table: 31, 30, and 28 or 29 for February by the leap-year rule. *)
Theorem getDaysInMonth_calendar year month :
  1 <= year <= 275759 -> 0 <= month <= 11 ->
  getDaysInMonth year month = calendarDaysInMonth year month.
Proof.
  intros Hy Hm. rewrite getDaysInMonth_fullYear by assumption.
  unfold MakeFullYear.
  destruct (Z.leb_spec 0 year); [|lia].
  destruct (Z.leb_spec year 99); simpl; [|reflexivity].
  unfold calendarDaysInMonth. rewrite isLeapYear_twoDigit by lia. reflexivity.
Qed.

Lemma getDaysInMonth_calendar_witness :
  getDaysInMonth 2024 1 = 29 /\ getDaysInMonth 1900 1 = 28 /\
  getDaysInMonth 2000 1 = 29 /\ getDaysInMonth 2025 3 = 30.
Proof.
  split; [| split; [| split]].
  - rewrite (getDaysInMonth_calendar 2024 1); [reflexivity | lia | lia].
  - rewrite (getDaysInMonth_calendar 1900 1); [reflexivity | lia | lia].
  - rewrite (getDaysInMonth_calendar 2000 1); [reflexivity | lia | lia].
  - rewrite (getDaysInMonth_calendar 2025 3); [reflexivity | lia | lia].
Defined.

(** ** The dates of the month *)

Lemma dayDate_formula year month day :
  dayDate year month day =
  (MakeDay (MakeFullYear year) month 0 + day) * msPerDay.
Proof.
  unfold dayDate, setHours0, newDate. rewrite Day_MakeDate.
  unfold MakeDate, MakeTime, MakeDay. lia.
Qed.

Lemma dayDate_lt year month d1 d2 :
  dayDate year month d1 < dayDate year month d2 <-> d1 < d2.
Proof. rewrite !dayDate_formula. unfold msPerDay. lia. Qed.

Lemma isPastDay_mono year month today d1 d2 :
  d1 <= d2 -> isPastDay year month today d1 = false ->
  isPastDay year month today d2 = false.
Proof.
  unfold isPastDay. intros Hle H1.
  apply Z.ltb_ge. apply Z.ltb_ge in H1.
  rewrite !dayDate_formula in *. unfold msPerDay in *. lia.
Qed.

Lemma pastDays_S year month today (k : nat) :
  pastDays year month today (Z.of_nat (S k)) =
  pastDays year month today (Z.of_nat k) ++
  (if isPastDay year month today (1 + Z.of_nat k) then [1 + Z.of_nat k] else []).
Proof. unfold pastDays. rewrite seqZ_S, List.filter_app. reflexivity. Qed.

Lemma filter_none {A} (f : A -> bool) (l : list A) :
  (forall x, In x l -> f x = false) -> List.filter f l = [].
Proof.
  induction l as [|a l IH]; intros H; [reflexivity|].
  simpl. rewrite (H a) by (left; reflexivity).
  apply IH. intros x Hx. apply H. right. exact Hx.
Qed.

(** Once a day is not past, no later day adds to the past days. *)
Lemma pastDays_stable year month today d n :
  0 <= d <= n -> isPastDay year month today d = false ->
  pastDays year month today n = pastDays year month today d.
Proof.
  intros Hd Hnp. unfold pastDays.
  replace n with (d + (n - d)) at 1 by lia.
  rewrite seqZ_app by lia. rewrite List.filter_app.
  rewrite (filter_none _ (seqZ (1 + d) (n - d))); [apply app_nil_r|].
  intros x Hx. apply list_elem_of_In, elem_of_seqZ in Hx.
  apply (isPastDay_mono _ _ _ d); [lia | assumption].
Qed.

(** ** The map of amounts spent *)

Lemma amountOf_unparseable text : parseFloat text = Number.NaN -> amountOf text = Number.zero.
Proof. intros H. unfold amountOf. rewrite H. reflexivity. Qed.

Lemma parseFloat_empty : parseFloat "" = Number.NaN.
Proof. reflexivity. Qed.

Lemma lookup_assignments (entries : list (string * string))
    (m : gmap string number) (key : string) :
  fold_left (fun (spentMap : gmap string number) '(dateKey, value) =>
               <[dateKey := amountOf value]> spentMap) entries m !! key =
  match lastAssigned key entries with
  | Some text => Some (amountOf text)
  | None => m !! key
  end.
Proof.
  revert m. induction entries as [|[k text] rest IH]; intros m; [reflexivity|].
  cbn [fold_left lastAssigned]. rewrite IH.
  destruct (lastAssigned key rest); [reflexivity|].
  destruct (String.eqb_spec k key) as [-> | Hne].
  - apply lookup_insert_eq.
  - by apply lookup_insert_ne.
Qed.

Lemma fold_rows_entries (rows : list DailySpending.row) (m : gmap string number) :
  fold_left (fun (spentMap : gmap string number) entry =>
               <[DailySpending.date entry := amountOf (DailySpending.spent entry)]> spentMap)
    rows m =
  fold_left (fun (spentMap : gmap string number) '(dateKey, value) =>
               <[dateKey := amountOf value]> spentMap)
    (List.map (fun e => (DailySpending.date e, DailySpending.spent e)) rows) m.
Proof.
  revert m. induction rows as [|e rows IH]; intros m; [reflexivity|].
  cbn [fold_left List.map]. apply IH.
Qed.

(** The local inputs override the fetched rows, and within each the last
    assignment to a key stands. *)
Lemma buildSpentMap_lookup data spentInputs key :
  buildSpentMap data spentInputs !! key =
  amountOf <$> decidingText data spentInputs key.
Proof.
  unfold buildSpentMap, decidingText. rewrite lookup_assignments.
  destruct (lastAssigned key spentInputs); [reflexivity|].
  destruct data as [rows|]; cbn [entriesOf lastAssigned].
  - rewrite fold_rows_entries, lookup_assignments.
    destruct (lastAssigned key _); [reflexivity | apply lookup_empty].
  - apply lookup_empty.
Qed.

Lemma setHours0_idempotent t : setHours0 (setHours0 t) = setHours0 t.
Proof. unfold setHours0. rewrite Day_MakeDate. reflexivity. Qed.

(** ** The loop *)

Section Loop.

Variable formatDate : Z -> string.
Variables year month daysCount : Z.
Variable availableMoney : number.
Variable spentMap : gmap string number.
Variable today : Z.

Let step := dayStep formatDate year month daysCount availableMoney spentMap today.
Let base := Number.div availableMoney (Number.ofZ daysCount).
Let init := {| Loop.rollover := Number.zero; Loop.remainingDays := daysCount; Loop.days := [] |}.

Lemma dayStep_rollover st day :
  Loop.rollover (step st day) =
  if isPastDay year month today day
  then Number.add (Loop.rollover st) (Number.sub base (spentOn year month spentMap day))
  else Loop.rollover st.
Proof.
  unfold step, dayStep, isPastDay, dayDate, spentOn, base.
  cbn [Loop.rollover]. reflexivity.
Qed.

Lemma dayStep_days st day :
  exists row,
    Loop.days (step st day) = Loop.days st ++ [row] /\
    describesDay year month daysCount base spentMap today
      (Loop.rollover (step st day)) day row.
Proof.
  unfold step, dayStep. cbn [Loop.days Loop.rollover].
  eexists. split; [reflexivity|].
  unfold describesDay, isPastDay, dayDate, redistributed, spentOn, base.
  cbn [DayAllowance.date DayAllowance.dateKey DayAllowance.spent
       DayAllowance.isPast DayAllowance.isToday DayAllowance.allowedSpending].
  repeat (split; [reflexivity|]).
  destruct (_ <? _); reflexivity.
Qed.

Lemma rolloverOver_snoc spentOf ds day :
  rolloverOver base spentOf (ds ++ [day]) =
  Number.add (rolloverOver base spentOf ds) (Number.sub base (spentOf day)).
Proof. unfold rolloverOver. rewrite fold_left_app. reflexivity. Qed.

(** After the first [k] turns: the rollover is the specification's sum over
    the past days among them, and row [i] describes day [i + 1] with the
    rollover the loop held at that turn. *)
Lemma loop_invariant (k : nat) :
  let st := fold_left step (seqZ 1 (Z.of_nat k)) init in
  Loop.rollover st =
    rolloverOver base (spentOn year month spentMap)
      (pastDays year month today (Z.of_nat k)) /\
  length (Loop.days st) = k /\
  forall (i : nat) row,
    Loop.days st !! i = Some row ->
    describesDay year month daysCount base spentMap today
      (rolloverOver base (spentOn year month spentMap)
         (pastDays year month today (Z.of_nat (S i))))
      (Z.of_nat (S i)) row.
Proof.
  induction k as [|k IH].
  - simpl. split; [reflexivity|]. split; [reflexivity|].
    intros i row H. discriminate H.
  - rewrite seqZ_S, fold_left_app. simpl fold_left.
    set (prev := fold_left step (seqZ 1 (Z.of_nat k)) init) in *.
    destruct IH as (IHr & IHl & IHd).
    assert (Hr : Loop.rollover (step prev (1 + Z.of_nat k)) =
                 rolloverOver base (spentOn year month spentMap)
                   (pastDays year month today (Z.of_nat (S k)))).
    { rewrite dayStep_rollover, pastDays_S, IHr.
      destruct (isPastDay year month today (1 + Z.of_nat k)).
      - rewrite rolloverOver_snoc. reflexivity.
      - rewrite app_nil_r. reflexivity. }
    split; [exact Hr|].
    destruct (dayStep_days prev (1 + Z.of_nat k)) as (row' & Hdays & Hrow).
    rewrite Hdays. split.
    + rewrite length_app, IHl. simpl. lia.
    + intros i row Hi.
      destruct (decide (i < k)%nat) as [Hlt | Hge].
      * rewrite lookup_app_l in Hi by lia. by apply IHd.
      * rewrite lookup_app_r in Hi by lia.
        rewrite IHl in Hi.
        destruct (i - k)%nat eqn:Hik; [|destruct n; discriminate Hi].
        assert (i = k) by lia. subst i.
        simpl in Hi. injection Hi as <-.
        rewrite Hr in Hrow.
        replace (1 + Z.of_nat k) with (Z.of_nat (S k)) in Hrow by lia.
        exact Hrow.
Qed.

End Loop.

(** ** What [spendingData] returns *)

(** From here on the calendar and text functions are used through their
    lemmas only. *)
Opaque getDaysInMonth dayDate setHours0 formatDateKey parseFloat.

Lemma seqZ_to_nat m n : seqZ m n = seqZ m (Z.of_nat (Z.to_nat n)).
Proof. unfold seqZ. rewrite Nat2Z.id. reflexivity. Qed.

Section Result.

Variable formatDate : Z -> string.
Variables year month : Z.
Variables displayTotal displaySaving : string.
Variable data : option (list DailySpending.row).
Variable spentInputs : list (string * string).
Variable now : Z.

Let r := spendingData formatDate year month displayTotal displaySaving data spentInputs now.
Let daysCount := getDaysInMonth year month.
Let today := setHours0 now.
Let spentMap := buildSpentMap data spentInputs.
Let base := SpendingData.baseDailyAllowance r.


Lemma spendingData_rollover :
  0 <= daysCount ->
  SpendingData.rollover r =
  rolloverOver base (spentOn year month spentMap) (pastDays year month today daysCount).
Proof.
  intros Hn. unfold r, spendingData. cbn [SpendingData.rollover].
  rewrite seqZ_to_nat.
  pose proof (loop_invariant formatDate year month (getDaysInMonth year month)
                (Number.sub (amountOf displayTotal) (amountOf displaySaving))
                (buildSpentMap data spentInputs) (setHours0 now)
                (Z.to_nat (getDaysInMonth year month))) as (Hr & _ & _).
  rewrite Hr. fold daysCount. rewrite Z2Nat.id by assumption. reflexivity.
Qed.

Lemma spendingData_length :
  length (SpendingData.days r) = Z.to_nat daysCount.
Proof.
  unfold r, spendingData. cbn [SpendingData.days].
  rewrite seqZ_to_nat.
  pose proof (loop_invariant formatDate year month (getDaysInMonth year month)
                (Number.sub (amountOf displayTotal) (amountOf displaySaving))
                (buildSpentMap data spentInputs) (setHours0 now)
                (Z.to_nat (getDaysInMonth year month))) as (_ & Hl & _).
  exact Hl.
Qed.

(** Row [day - 1] of the result describes day [day], with the rollover over
    the past days up to that day. *)
Lemma spendingData_row day :
  1 <= day <= daysCount ->
  exists row,
    SpendingData.days r !! Z.to_nat (day - 1) = Some row /\
    describesDay year month daysCount base spentMap today
      (rolloverOver base (spentOn year month spentMap) (pastDays year month today day))
      day row.
Proof.
  intros Hday.
  pose proof spendingData_length as Hlen.
  destruct (lookup_lt_is_Some_2 (SpendingData.days r) (Z.to_nat (day - 1)))
    as [row Hrow]; [lia|].
  exists row. split; [exact Hrow|].
  revert Hrow. unfold r, spendingData. cbn [SpendingData.days].
  rewrite seqZ_to_nat. intros Hrow.
  pose proof (loop_invariant formatDate year month (getDaysInMonth year month)
                (Number.sub (amountOf displayTotal) (amountOf displaySaving))
                (buildSpentMap data spentInputs) (setHours0 now)
                (Z.to_nat (getDaysInMonth year month))) as (_ & _ & Hd).
  specialize (Hd _ _ Hrow).
  replace (Z.of_nat (S (Z.to_nat (day - 1)))) with day in Hd by lia.
  exact Hd.
Qed.

End Result.

(** C3. Every day whose date is strictly earlier than today is reported
    with [allowedSpending] equal to [baseDailyAllowance], which is
    [availableMoney / daysCount]: the rollover plays no part in it. *)
Theorem past_day_allowance (formatDate : Z -> string) (year month : Z)
    (displayTotal displaySaving : string) (data : option (list DailySpending.row))
    (spentInputs : list (string * string)) (now day : Z) :
  let r := spendingData formatDate year month displayTotal displaySaving
             data spentInputs now in
  validYearMonth year month ->
  1 <= day <= getDaysInMonth year month ->
  dayDate year month day < setHours0 now ->
  exists row,
    SpendingData.days r !! Z.to_nat (day - 1) = Some row /\
    DayAllowance.date row = dayDate year month day /\
    DayAllowance.isPast row = true /\
    DayAllowance.allowedSpending row = SpendingData.baseDailyAllowance r /\
    SpendingData.baseDailyAllowance r =
      Number.div (SpendingData.availableMoney r)
        (Number.ofZ (getDaysInMonth year month)).
Proof.
  intros r _ Hday Hpast.
  destruct (spendingData_row formatDate year month displayTotal displaySaving
              data spentInputs now day Hday)
    as (row & Hrow & Hdate & _ & _ & Hp & _ & Hallowed).
  assert (Hb : isPastDay year month (setHours0 now) day = true)
    by (unfold isPastDay; apply Z.ltb_lt; exact Hpast).
  rewrite Hb in Hp, Hallowed.
  exists row. repeat (split; [assumption|]). reflexivity.
Qed.

Lemma past_day_allowance_witness :
  exists row,
    SpendingData.days
      (spendingData (fun _ => ""%string) 2025 3 "3000" "0" None
         [("2025-04-01"%string, "50"%string)] 1743555600000)
      !! 0%nat = Some row /\
    DayAllowance.allowedSpending row = Number.ofZ 100.
Proof.
  destruct (past_day_allowance (fun _ => ""%string) 2025 3 "3000" "0" None
              [("2025-04-01"%string, "50"%string)] 1743555600000 1)
    as (row & Hrow & _ & _ & Hallowed & _).
  - unfold validYearMonth. lia.
  - vm_compute. split; discriminate.
  - vm_compute. reflexivity.
  - exists row. split; [exact Hrow|]. rewrite Hallowed. vm_compute. reflexivity.
Defined.

(** A day that is not past gets the redistribution of the rollover that
    [spendingData] returns. *)
Lemma spendingData_not_past (formatDate : Z -> string) (year month : Z)
    (displayTotal displaySaving : string) (data : option (list DailySpending.row))
    (spentInputs : list (string * string)) (now day : Z) :
  let r := spendingData formatDate year month displayTotal displaySaving
             data spentInputs now in
  let daysCount := getDaysInMonth year month in
  1 <= day <= daysCount ->
  ~ dayDate year month day < setHours0 now ->
  SpendingData.rollover r =
    rolloverOver (SpendingData.baseDailyAllowance r)
      (spentOn year month (buildSpentMap data spentInputs))
      (pastDays year month (setHours0 now) daysCount) /\
  exists row,
    SpendingData.days r !! Z.to_nat (day - 1) = Some row /\
    DayAllowance.date row = dayDate year month day /\
    DayAllowance.isPast row = false /\
    DayAllowance.allowedSpending row =
      redistributed (SpendingData.baseDailyAllowance r) (SpendingData.rollover r)
        daysCount day.
Proof.
  intros r daysCount Hday Hnp.
  assert (Hr : SpendingData.rollover r =
               rolloverOver (SpendingData.baseDailyAllowance r)
                 (spentOn year month (buildSpentMap data spentInputs))
                 (pastDays year month (setHours0 now) daysCount)).
  { apply spendingData_rollover. unfold daysCount in *. lia. }
  split; [exact Hr|].
  destruct (spendingData_row formatDate year month displayTotal displaySaving
              data spentInputs now day Hday)
    as (row & Hrow & Hdate & _ & _ & Hp & _ & Hallowed).
  assert (Hb : isPastDay year month (setHours0 now) day = false)
    by (unfold isPastDay; apply Z.ltb_ge; lia).
  rewrite Hb in Hp, Hallowed.
  exists row. repeat (split; [assumption|]).
  rewrite Hallowed, Hr. unfold daysCount.
  rewrite (pastDays_stable year month (setHours0 now) day
             (getDaysInMonth year month)) by (assumption || lia).
  reflexivity.
Qed.

(** C1. A day that is today or later (its date is not strictly earlier than
    today) is reported with [allowedSpending] equal to
    [((baseDailyAllowance * daysRemaining) + rollover) / daysRemaining], where
    [daysRemaining = daysCount - day + 1] and the rollover is the one
    accumulated from all the past days of the month, which is also the
    rollover returned.  In a 30-day month with total 3000, saving 0 and 50
    spent on day 1, with day 2 as today, day 2 is allowed
    [(100 * 29 + 50) / 29], the binary64 value 101.72413793103448. *)
Theorem redistributed_allowance (formatDate : Z -> string) (year month : Z)
    (now : Z) :
  validYearMonth year month ->
  (forall (displayTotal displaySaving : string)
          (data : option (list DailySpending.row))
          (spentInputs : list (string * string)) (day : Z),
     let r := spendingData formatDate year month displayTotal displaySaving
                data spentInputs now in
     let daysCount := getDaysInMonth year month in
     let pastRollover :=
       rolloverOver (SpendingData.baseDailyAllowance r)
         (spentOn year month (buildSpentMap data spentInputs))
         (pastDays year month (setHours0 now) daysCount) in
     1 <= day <= daysCount ->
     ~ dayDate year month day < setHours0 now ->
     SpendingData.rollover r = pastRollover /\
     exists row,
       SpendingData.days r !! Z.to_nat (day - 1) = Some row /\
       DayAllowance.date row = dayDate year month day /\
       DayAllowance.isPast row = false /\
       DayAllowance.allowedSpending row =
         Number.div
           (Number.add
              (Number.mul (SpendingData.baseDailyAllowance r)
                 (Number.ofZ (daysCount - day + 1)))
              pastRollover)
           (Number.ofZ (daysCount - day + 1))) /\
  (getDaysInMonth year month = 30 ->
   setHours0 now = dayDate year month 2 ->
   let r := spendingData formatDate year month "3000" "0" None
              [(formatDateKey year month 1, "50"%string)] now in
   SpendingData.baseDailyAllowance r = Number.ofZ 100 /\
   exists row,
     SpendingData.days r !! 1%nat = Some row /\
     DayAllowance.isToday row = true /\
     DayAllowance.allowedSpending row =
       Number.div
         (Number.add (Number.mul (Number.ofZ 100) (Number.ofZ 29)) (Number.ofZ 50))
         (Number.ofZ 29)).
Proof.
  intros Hvalid.
  assert (Hgen : forall (displayTotal displaySaving : string)
          (data : option (list DailySpending.row))
          (spentInputs : list (string * string)) (day : Z),
     let r := spendingData formatDate year month displayTotal displaySaving
                data spentInputs now in
     let daysCount := getDaysInMonth year month in
     let pastRollover :=
       rolloverOver (SpendingData.baseDailyAllowance r)
         (spentOn year month (buildSpentMap data spentInputs))
         (pastDays year month (setHours0 now) daysCount) in
     1 <= day <= daysCount ->
     ~ dayDate year month day < setHours0 now ->
     SpendingData.rollover r = pastRollover /\
     exists row,
       SpendingData.days r !! Z.to_nat (day - 1) = Some row /\
       DayAllowance.date row = dayDate year month day /\
       DayAllowance.isPast row = false /\
       DayAllowance.allowedSpending row =
         redistributed (SpendingData.baseDailyAllowance r) pastRollover
           daysCount day).
  { intros displayTotal displaySaving data spentInputs day r daysCount
      pastRollover Hday Hnp.
    destruct (spendingData_not_past formatDate year month displayTotal
                displaySaving data spentInputs now day Hday Hnp)
      as (Hr & row & Hrow & Hdate & Hp & Hallowed).
    split; [exact Hr|].
    exists row. repeat (split; [assumption|]).
    rewrite Hallowed, Hr. reflexivity. }
  split; [exact Hgen|].
  intros Hn Htoday r.
  destruct (Hgen "3000"%string "0"%string None
              [(formatDateKey year month 1, "50"%string)] 2)
    as (_ & row & Hrow & Hdate & _ & Hallowed).
  { rewrite Hn. lia. }
  { rewrite Htoday. lia. }
  split; [unfold r, spendingData; cbn [SpendingData.baseDailyAllowance];
          rewrite Hn; vm_compute; reflexivity|].
  exists row. split; [exact Hrow|].
  destruct (spendingData_row formatDate year month "3000" "0" None
              [(formatDateKey year month 1, "50"%string)] now 2)
    as (row' & Hrow' & _ & _ & _ & _ & Htd & _); [rewrite Hn; lia|].
  change (Z.to_nat (2 - 1)) with 1%nat in Hrow, Hrow'.
  fold r in Hrow, Hrow', Hallowed.
  rewrite Hrow in Hrow'. injection Hrow' as <-.
  split; [rewrite Htd, Htoday; apply Z.eqb_refl|].
  rewrite Hallowed.
  rewrite (pastDays_stable year month (setHours0 now) 2 (getDaysInMonth year month))
    by (rewrite ?Hn; try lia; unfold isPastDay; apply Z.ltb_ge; rewrite Htoday; lia).
  assert (Hpast : pastDays year month (setHours0 now) 2 = [1]).
  { unfold pastDays. change (seqZ 1 2) with [1; 2]. cbn [List.filter].
    unfold isPastDay. rewrite Htoday.
    rewrite (proj2 (Z.ltb_lt _ _)) by (apply dayDate_lt; lia).
    rewrite Z.ltb_irrefl. reflexivity. }
  rewrite Hpast.
  assert (Hspent : spentOn year month
                     (buildSpentMap None [(formatDateKey year month 1, "50"%string)]) 1
                   = Number.ofZ 50).
  { unfold spentOn, buildSpentMap. cbn [fold_left].
    rewrite lookup_insert_eq. vm_compute. reflexivity. }
  unfold rolloverOver. cbn [fold_left]. rewrite Hspent.
  unfold r, spendingData. cbn [SpendingData.baseDailyAllowance].
  rewrite Hn. vm_compute. reflexivity.
Qed.

Lemma redistributed_allowance_witness :
  exists row,
    SpendingData.days
      (spendingData (fun _ => ""%string) 2025 3 "3000" "0" None
         [("2025-04-01"%string, "50"%string)] 1743555600000)
      !! 1%nat = Some row /\
    DayAllowance.allowedSpending row = Number.ofDecimal 10172413793103448 (-14).
Proof.
  destruct (redistributed_allowance (fun _ => ""%string) 2025 3 1743555600000)
    as [_ Hscenario].
  - unfold validYearMonth. lia.
  - destruct Hscenario as (_ & row & Hrow & _ & Hallowed).
    + vm_compute. reflexivity.
    + vm_compute. reflexivity.
    + exists row. split; [exact Hrow|].
      rewrite Hallowed. vm_compute. reflexivity.
Defined.

(** ** The past days are the first days of the month *)





(** ** The rollover with no spending *)






(** Where the additions are exact the rollover is the product: five past
    days of April 2025 with 3000 to spend give 5 * 100. *)
Example rollover_five_past_days :
  SpendingData.rollover
    (spendingData (fun _ => ""%string) 2025 3 "3000" "0" None [] 1743901200000)
  = Number.ofZ 500.
Proof. vm_compute. reflexivity. Qed.

(** C10. If today is on or before the first day of the month, so that no
    day of the month is strictly earlier than today, the rollover returned
    is 0 and every day is reported as not past with [allowedSpending] equal
    to [(baseDailyAllowance * d + 0) / d], where [d] is the number of days
    from that day to the end of the month, whatever the spending
    recorded. *)
Theorem no_past_day_no_rollover (formatDate : Z -> string) (year month : Z)
    (displayTotal displaySaving : string) (data : option (list DailySpending.row))
    (spentInputs : list (string * string)) (now : Z) :
  let r := spendingData formatDate year month displayTotal displaySaving
             data spentInputs now in
  let daysCount := getDaysInMonth year month in
  validYearMonth year month ->
  setHours0 now <= dayDate year month 1 ->
  SpendingData.rollover r = Number.zero /\
  forall day, 1 <= day <= daysCount ->
    exists row,
      SpendingData.days r !! Z.to_nat (day - 1) = Some row /\
      DayAllowance.isPast row = false /\
      DayAllowance.allowedSpending row =
        Number.div
          (Number.add
             (Number.mul (SpendingData.baseDailyAllowance r)
                (Number.ofZ (daysCount - day + 1)))
             Number.zero)
          (Number.ofZ (daysCount - day + 1)).
Proof.
  intros r daysCount [_ Hm] Hfirst.
  pose proof (getDaysInMonth_bounds year month Hm) as Hn. fold daysCount in Hn.
  assert (Hnone : forall k, 0 <= k -> pastDays year month (setHours0 now) k = []).
  { intros k Hk. unfold pastDays. apply filter_none. intros x Hx.
    apply list_elem_of_In, elem_of_seqZ in Hx.
    unfold isPastDay. apply Z.ltb_ge.
    assert (dayDate year month 1 <= dayDate year month x); [|lia].
    destruct (Z.eq_dec x 1) as [-> | Hne]; [lia|].
    apply Z.lt_le_incl, dayDate_lt. lia. }
  split.
  - unfold r. rewrite spendingData_rollover by (fold daysCount; lia).
    fold daysCount. rewrite Hnone by lia. reflexivity.
  - intros day Hday.
    destruct (spendingData_row formatDate year month displayTotal displaySaving
                data spentInputs now day Hday)
      as (row & Hrow & _ & _ & _ & Hp & _ & Hallowed).
    assert (Hb : isPastDay year month (setHours0 now) day = false).
    { unfold isPastDay. apply Z.ltb_ge.
      assert (dayDate year month 1 <= dayDate year month day); [|lia].
      destruct (Z.eq_dec day 1) as [-> | Hne]; [lia|].
      apply Z.lt_le_incl, dayDate_lt. lia. }
    rewrite Hb in Hp, Hallowed. rewrite Hnone in Hallowed by lia.
    exists row. split; [exact Hrow|]. split; [exact Hp|].
    rewrite Hallowed. reflexivity.
Qed.

Lemma no_past_day_no_rollover_witness :
  SpendingData.rollover
    (spendingData (fun _ => ""%string) 2025 3 "3000" "0" None
       [("2025-04-01"%string, "50"%string)] 1743382800000) = Number.zero.
Proof.
  destruct (no_past_day_no_rollover (fun _ => ""%string) 2025 3 "3000" "0" None
              [("2025-04-01"%string, "50"%string)] 1743382800000) as [Hr _].
  - unfold validYearMonth. lia.
  - vm_compute. discriminate.
  - exact Hr.
Defined.

(** With 3000 to spend in May 2025, seen on 30 April 2025: no day of May is
    past, the base allowance is 96.774193548387103, and day 8 is allowed
    96.774193548387117. *)
Lemma allowance_is_not_base_without_past_day :
  let r := spendingData (fun _ => ""%string) 2025 4 "3000" "0" None []
             1745974800000 in
  setHours0 1745974800000 <= dayDate 2025 4 1 /\
  SpendingData.rollover r = Number.zero /\
  SpendingData.baseDailyAllowance r = Number.ofDecimal 96774193548387103 (-15) /\
  exists row,
    SpendingData.days r !! 7%nat = Some row /\
    DayAllowance.isPast row = false /\
    DayAllowance.allowedSpending row = Number.ofDecimal 96774193548387117 (-15) /\
    DayAllowance.allowedSpending row <> SpendingData.baseDailyAllowance r.
Proof.
  intros r.
  split; [vm_compute; discriminate|].
  split; [vm_compute; reflexivity|].
  split; [vm_compute; reflexivity|].
  eexists. split; [vm_compute; reflexivity|].
  split; [reflexivity|].
  split; [vm_compute; reflexivity|].
  vm_compute. discriminate.
Qed.

(** ** Signs of binary64 results *)





(** ** Binary64 values *)

























Transparent parseFloat.


Opaque parseFloat.


(** An amount is never [NaN] and never [-0]. *)
Lemma amountOf_cases text :
  amountOf text = Number.zero \/
  (exists s, amountOf text = S754_infinity s) \/
  (exists s m e, amountOf text = S754_finite s m e).
Proof.
  unfold amountOf, Number.or.
  destruct (parseFloat text) as [b|b| |b m e]; cbn [Number.toBoolean]; eauto 6.
Qed.




















(** C7. [spendingData] returns a result for every input of its domain, with
    one row per day of the month, and text that [parseFloat] cannot read as
    a number ([NaN]; the empty text is one such) counts as 0: as the total,
    as the saving, and as the amount spent on a day. *)
Theorem unparseable_is_zero (formatDate : Z -> string) (year month : Z)
    (displayTotal displaySaving : string) (data : option (list DailySpending.row))
    (spentInputs : list (string * string)) (now : Z) :
  let r := spendingData formatDate year month displayTotal displaySaving
             data spentInputs now in
  let daysCount := getDaysInMonth year month in
  validYearMonth year month ->
  parseFloat "" = Number.NaN /\
  length (SpendingData.days r) = Z.to_nat daysCount /\
  (parseFloat displayTotal = Number.NaN -> SpendingData.totalAmount r = Number.zero) /\
  (parseFloat displaySaving = Number.NaN -> SpendingData.desiredSaving r = Number.zero) /\
  (forall day text,
     1 <= day <= daysCount ->
     decidingText data spentInputs (formatDateKey year month day) = Some text ->
     parseFloat text = Number.NaN ->
     exists row,
       SpendingData.days r !! Z.to_nat (day - 1) = Some row /\
       DayAllowance.spent row = Number.zero).
Proof.
  intros r daysCount Hvalid.
  split; [apply parseFloat_empty|].
  split; [apply spendingData_length|].
  split; [intros H; apply amountOf_unparseable; exact H|].
  split; [intros H; apply amountOf_unparseable; exact H|].
  intros day text Hday Htext Hnan.
  destruct (spendingData_row formatDate year month displayTotal displaySaving
              data spentInputs now day Hday)
    as (row & Hrow & _ & _ & Hspent & _).
  exists row. split; [exact Hrow|].
  rewrite Hspent. unfold spentOn.
  rewrite buildSpentMap_lookup, Htext. simpl.
  apply amountOf_unparseable. exact Hnan.
Qed.

Lemma unparseable_is_zero_witness :
  let r := spendingData (fun _ => ""%string) 2025 3 "" "abc" None
             [("2025-04-01"%string, "12"%string); ("2025-04-01"%string, ""%string)]
             1743555600000 in
  SpendingData.totalAmount r = Number.zero /\
  SpendingData.desiredSaving r = Number.zero /\
  exists row,
    SpendingData.days r !! 0%nat = Some row /\ DayAllowance.spent row = Number.zero.
Proof.
  intros r.
  destruct (unparseable_is_zero (fun _ => ""%string) 2025 3 "" "abc" None
              [("2025-04-01"%string, "12"%string); ("2025-04-01"%string, ""%string)]
              1743555600000)
    as (_ & _ & Htotal & Hsaving & Hspent).
  - unfold validYearMonth. lia.
  - split; [apply Htotal; vm_compute; reflexivity|].
    split; [apply Hsaving; vm_compute; reflexivity|].
    apply (Hspent 1 ""%string).
    + vm_compute. split; discriminate.
    + vm_compute. reflexivity.
    + vm_compute. reflexivity.
Defined.

(** ** Rows and keys *)

Section Keys.

Context {A K : Type}.
Variable key : A -> K.
Variable hasKey : K -> A -> bool.
Hypothesis hasKey_spec : forall k a, hasKey k a = true <-> key a = k.

Lemma filter_absent k (l : list A) :
  ~ In k (List.map key l) -> List.filter (hasKey k) l = [].
Proof.
  intros Hk. apply filter_none. intros x Hx.
  destruct (hasKey k x) eqn:Hx'; [|reflexivity].
  exfalso. apply Hk. apply hasKey_spec in Hx'. rewrite <- Hx'.
  apply in_map. exact Hx.
Qed.

Lemma existsb_absent k (l : list A) :
  existsb (hasKey k) l = false <-> ~ In k (List.map key l).
Proof.
  split.
  - intros He Hin. apply in_map_iff in Hin as (x & Hkx & Hx).
    assert (existsb (hasKey k) l = true); [|congruence].
    apply existsb_exists. exists x. split; [exact Hx | by apply hasKey_spec].
  - intros Hk. destruct (existsb (hasKey k) l) eqn:He; [|reflexivity].
    exfalso. apply existsb_exists in He as (x & Hx & Hkx).
    apply Hk. apply hasKey_spec in Hkx. rewrite <- Hkx. apply in_map. exact Hx.
Qed.

(** A key of the table selects the one row that has it. *)
Lemma filter_unique e (l : list A) :
  NoDup (List.map key l) -> In e l -> List.filter (hasKey (key e)) l = [e].
Proof.
  induction l as [|a l IH]; intros Hnd Hin; [destruct Hin|].
  cbn [List.map] in Hnd. apply NoDup_cons in Hnd as [Hna Hnd].
  rewrite list_elem_of_In in Hna.
  cbn [List.filter]. destruct Hin as [-> | Hin].
  - rewrite (proj2 (hasKey_spec (key e) e) eq_refl).
    rewrite filter_absent by exact Hna. reflexivity.
  - destruct (hasKey (key e) a) eqn:Ha.
    + exfalso. apply Hna. apply hasKey_spec in Ha. rewrite Ha.
      apply in_map. exact Hin.
    + apply IH; assumption.
Qed.

Lemma find_filter_head (f : A -> bool) (l : list A) :
  List.find f l = head (List.filter f l).
Proof.
  induction l as [|a l IH]; [reflexivity|].
  simpl. destruct (f a); [reflexivity | exact IH].
Qed.

Lemma map_key_updateWhere (w : A -> bool) (set : A -> A) (l : list A) :
  (forall a, key (set a) = key a) ->
  List.map key (Store.updateWhere w set l) = List.map key l.
Proof.
  intros Hset. unfold Store.updateWhere. rewrite List.map_map.
  apply List.map_ext. intros a. destruct (w a); [apply Hset | reflexivity].
Qed.

End Keys.

Lemma planHasKey_spec (k : Z * Z) (p : SpendingPlan.row) :
  Store.planHasKey k.1 k.2 p = true <-> Store.planKey p = k.
Proof.
  destruct k as [y m]. unfold Store.planHasKey, Store.planKey. simpl.
  rewrite andb_true_iff, !Z.eqb_eq. split; [intros [-> ->]; reflexivity|].
  intros H. injection H as -> ->. split; reflexivity.
Qed.

Lemma entryHasKey_spec (k : Z * string) (e : DailySpending.row) :
  Store.entryHasKey k.1 k.2 e = true <-> Store.entryKey e = k.
Proof.
  destruct k as [i d]. unfold Store.entryHasKey, Store.entryKey. simpl.
  rewrite andb_true_iff, Z.eqb_eq, String.eqb_eq.
  split; [intros [-> ->]; reflexivity|].
  intros H. injection H as -> ->. split; reflexivity.
Qed.

Lemma planHasId_spec (i : Z) (p : SpendingPlan.row) :
  (SpendingPlan.id p =? i) = true <-> SpendingPlan.id p = i.
Proof. apply Z.eqb_eq. Qed.

Lemma entryHasId_spec (i : Z) (e : DailySpending.row) :
  (DailySpending.id e =? i) = true <-> DailySpending.id e = i.
Proof. apply Z.eqb_eq. Qed.

(** Updating the row of a given [id]: under another key of the table that
    the update leaves alone, the updated row is the one that is found. *)
Lemma filter_updateWhere {A K : Type} (key : A -> K) (hasKey : K -> A -> bool)
    (id : A -> Z) (set : A -> A) (e : A) (l : list A) :
  (forall k a, hasKey k a = true <-> key a = k) ->
  (forall a, key (set a) = key a) ->
  NoDup (List.map id l) -> NoDup (List.map key l) -> In e l ->
  List.filter (hasKey (key e)) (Store.updateWhere (fun x => id x =? id e) set l)
  = [set e].
Proof.
  intros Hspec Hset. induction l as [|a l IH]; intros Hid Hkey Hin; [destruct Hin|].
  cbn [List.map] in Hid, Hkey.
  apply NoDup_cons in Hid as [Hia Hid]. apply NoDup_cons in Hkey as [Hka Hkey].
  rewrite list_elem_of_In in Hia. rewrite list_elem_of_In in Hka.
  unfold Store.updateWhere in *. cbn [List.map List.filter].
  destruct Hin as [-> | Hin].
  - rewrite Z.eqb_refl.
    rewrite (proj2 (Hspec (key e) (set e)) (Hset e)).
    f_equal. apply (filter_absent key hasKey Hspec).
    pose proof (map_key_updateWhere key (fun x => id x =? id e) set l Hset) as Hm.
    unfold Store.updateWhere in Hm. rewrite Hm. exact Hka.
  - destruct (Z.eqb_spec (id a) (id e)) as [Heq | Hne].
    + exfalso. apply Hia. rewrite Heq. apply in_map. exact Hin.
    + destruct (hasKey (key e) a) eqn:Ha.
      * exfalso. apply Hka. apply Hspec in Ha. rewrite Ha. apply in_map. exact Hin.
      * apply IH; assumption.
Qed.

(** ** The constraints of the schema are kept *)

Lemma NoDup_snoc {K : Type} (l : list K) (k : K) :
  NoDup l -> ~ In k l -> NoDup (l ++ [k]).
Proof.
  intros Hl Hk. apply NoDup_app. split; [exact Hl|]. split.
  - intros x Hx Hxk. apply list_elem_of_In in Hx.
    apply list_elem_of_In in Hxk. destruct Hxk as [<- | []]. contradiction.
  - apply NoDup_singleton.
Qed.
Lemma uniqueKeys_empty : Store.uniqueKeys Store.empty.
Proof. split; simpl; apply NoDup_nil_2. Qed.

Lemma lookup_updateWhere {A : Type} (w : A -> bool) (set : A -> A)
    (l : list A) (i : nat) :
  Store.updateWhere w set l !! i =
  (fun r => if w r then set r else r) <$> (l !! i).
Proof. unfold Store.updateWhere. apply list_lookup_fmap. Qed.

Lemma updatePlans_unique w totalAmount desiredSaving now s :
  Store.uniqueKeys s ->
  Store.uniqueKeys
    {| Store.spendingPlans :=
         Store.updateWhere w (Store.setPlanSettings totalAmount desiredSaving now)
           (Store.spendingPlans s);
       Store.dailySpending := Store.dailySpending s;
       Store.spendingPlansSeq := Store.spendingPlansSeq s;
       Store.dailySpendingSeq := Store.dailySpendingSeq s |}.
Proof.
  intros [Hpi Hpk Hei Hek]. split; cbn; try assumption.
  - rewrite map_key_updateWhere; [assumption | reflexivity].
  - rewrite map_key_updateWhere; [assumption | reflexivity].
Qed.

Lemma updateEntries_unique w spent now s :
  Store.uniqueKeys s ->
  Store.uniqueKeys
    {| Store.spendingPlans := Store.spendingPlans s;
       Store.dailySpending :=
         Store.updateWhere w (Store.setEntrySpent spent now) (Store.dailySpending s);
       Store.spendingPlansSeq := Store.spendingPlansSeq s;
       Store.dailySpendingSeq := Store.dailySpendingSeq s |}.
Proof.
  intros [Hpi Hpk Hei Hek]. split; cbn; try assumption.
  - rewrite map_key_updateWhere; [assumption | reflexivity].
  - rewrite map_key_updateWhere; [assumption | reflexivity].
Qed.

(** The statements, for any conversion of the amounts and of the dates. *)
Section Statements.

Variable numericIn : string -> option string.
Variable dateIn : Z -> string -> option string.

Lemma insertPlan_done now year month totalAmount desiredSaving s rows s' :
  Store.uniqueKeys s ->
  Store.insertPlan numericIn now year month totalAmount desiredSaving s
    = Store.Done rows s' ->
  exists total saving,
    numericIn totalAmount = Some total /\
    numericIn desiredSaving = Some saving /\
    let r := SpendingPlan.mk (Store.spendingPlansSeq s) year month total saving
               now now in
    rows = [r] /\
    Store.spendingPlans s' = Store.spendingPlans s ++ [r] /\
    Store.dailySpending s' = Store.dailySpending s /\
    Store.spendingPlansSeq s' = Store.spendingPlansSeq s + 1 /\
    Store.dailySpendingSeq s' = Store.dailySpendingSeq s /\
    ~ In (year, month) (List.map Store.planKey (Store.spendingPlans s)) /\
    Store.uniqueKeys s'.
Proof.
  intros [Hpi Hpk Hei Hek] Hins. unfold Store.insertPlan in Hins.
  destruct (negb _); [discriminate|].
  destruct (numericIn totalAmount) as [total|]; [|discriminate].
  destruct (numericIn desiredSaving) as [saving|]; [|discriminate].
  cbn [SpendingPlan.id] in Hins.
  destruct (existsb _ (Store.spendingPlans s)) eqn:Hid; [discriminate|].
  destruct (existsb (Store.planHasKey year month) (Store.spendingPlans s)) eqn:Hkey;
    [discriminate|].
  injection Hins as <- <-. cbn.
  apply (existsb_absent SpendingPlan.id (fun i p => SpendingPlan.id p =? i)
           planHasId_spec) in Hid.
  apply (existsb_absent Store.planKey (fun k => Store.planHasKey k.1 k.2)
           planHasKey_spec (year, month)) in Hkey.
  exists total, saving.
  repeat (split; [reflexivity|]). split; [exact Hkey|].
  split; cbn; try assumption; rewrite List.map_app; apply NoDup_snoc; assumption.
Qed.

Lemma insertEntry_done now planId date spent s rows s' :
  Store.uniqueKeys s ->
  Store.insertEntry numericIn dateIn now planId date spent s = Store.Done rows s' ->
  exists d v,
    dateIn now date = Some d /\
    numericIn spent = Some v /\
    let r := DailySpending.mk (Store.dailySpendingSeq s) planId d v now now in
    rows = [r] /\
    Store.dailySpending s' = Store.dailySpending s ++ [r] /\
    Store.spendingPlans s' = Store.spendingPlans s /\
    Store.spendingPlansSeq s' = Store.spendingPlansSeq s /\
    Store.dailySpendingSeq s' = Store.dailySpendingSeq s + 1 /\
    ~ In (planId, d) (List.map Store.entryKey (Store.dailySpending s)) /\
    (exists p, In p (Store.spendingPlans s) /\ SpendingPlan.id p = planId) /\
    Store.uniqueKeys s'.
Proof.
  intros [Hpi Hpk Hei Hek] Hins. unfold Store.insertEntry in Hins.
  destruct (negb (_ && _)); [discriminate|].
  destruct (dateIn now date) as [d|]; [|discriminate].
  destruct (numericIn spent) as [v|]; [|discriminate].
  cbn [DailySpending.id] in Hins.
  destruct (existsb _ (Store.dailySpending s)) eqn:Hid; [discriminate|].
  destruct (negb _) eqn:Hfk; [discriminate|]. apply negb_false_iff in Hfk.
  destruct (existsb (Store.entryHasKey planId d) (Store.dailySpending s)) eqn:Hkey;
    [discriminate|].
  injection Hins as <- <-. cbn.
  apply (existsb_absent DailySpending.id (fun i e => DailySpending.id e =? i)
           entryHasId_spec) in Hid.
  apply (existsb_absent Store.entryKey (fun k => Store.entryHasKey k.1 k.2)
           entryHasKey_spec (planId, d)) in Hkey.
  exists d, v.
  repeat (split; [reflexivity|]). split; [exact Hkey|].
  split.
  { apply existsb_exists in Hfk as (p & Hp & Heq). exists p.
    split; [exact Hp | apply Z.eqb_eq; exact Heq]. }
  split; cbn; try assumption; rewrite List.map_app; apply NoDup_snoc; assumption.
Qed.

Lemma getOrCreatePlan_unique now year month s result s' :
  Store.uniqueKeys s ->
  Store.getOrCreatePlan numericIn now year month s = Store.Done result s' ->
  Store.uniqueKeys s'.
Proof.
  intros Hu. unfold Store.getOrCreatePlan.
  destruct (negb _); [discriminate|].
  destruct (Store.findFirst _ _).
  - intros H. injection H as _ <-. exact Hu.
  - destruct (Store.insertPlan numericIn now year month "0" "0" s) eqn:Hins;
      [discriminate|].
    intros H. injection H as _ <-.
    destruct (insertPlan_done _ _ _ _ _ _ _ _ Hu Hins) as (total & saving & Hd).
    apply Hd.
Qed.

Lemma updatePlanSettings_unique now planId totalAmount desiredSaving s result s' :
  Store.uniqueKeys s ->
  Store.updatePlanSettings numericIn now planId totalAmount desiredSaving s
    = Store.Done result s' ->
  Store.uniqueKeys s'.
Proof.
  intros Hu. unfold Store.updatePlanSettings.
  destruct (negb _); [discriminate|].
  destruct (numericIn totalAmount) as [total|]; [|discriminate].
  destruct (numericIn desiredSaving) as [saving|]; [|discriminate].
  intros H. injection H as _ <-. by apply updatePlans_unique.
Qed.

Lemma upsertDailySpending_unique now planId date spent s result s' :
  Store.uniqueKeys s ->
  Store.upsertDailySpending numericIn dateIn now planId date spent s
    = Store.Done result s' ->
  Store.uniqueKeys s'.
Proof.
  intros Hu. unfold Store.upsertDailySpending.
  destruct (negb _); [discriminate|].
  destruct (dateIn now date) as [d|]; [|discriminate].
  destruct (Store.findFirst _ _).
  - destruct (numericIn spent) as [v|]; [|discriminate].
    intros H. injection H as _ <-. by apply updateEntries_unique.
  - destruct (Store.insertEntry numericIn dateIn now planId date spent s) eqn:Hins;
      [discriminate|].
    intros H. injection H as _ <-.
    destruct (insertEntry_done _ _ _ _ _ _ _ Hu Hins) as (d' & v & Hd).
    apply Hd.
Qed.

(** After an upsert that succeeded, the plan and the date have exactly one
    row, and it holds the amount as the column has converted it. *)
Lemma upsertDailySpending_one_row now planId date spent s result s' :
  Store.uniqueKeys s ->
  Store.upsertDailySpending numericIn dateIn now planId date spent s
    = Store.Done result s' ->
  exists d v e,
    Store.isInteger planId = true /\
    dateIn now date = Some d /\
    numericIn spent = Some v /\
    result = Some e /\
    Store.findMany (Store.entryHasKey planId d) (Store.dailySpending s') = [e] /\
    DailySpending.spent e = v /\
    Store.entryKey e = (planId, d) /\
    (forall existing,
       Store.findFirst (Store.entryHasKey planId d) (Store.dailySpending s)
         = Some existing ->
       DailySpending.id e = DailySpending.id existing /\
       length (Store.dailySpending s') = length (Store.dailySpending s)).
Proof.
  intros Hu. pose proof Hu as [Hpi Hpk Hei Hek].
  unfold Store.upsertDailySpending.
  destruct (negb _) eqn:Hint; [discriminate|]. apply negb_false_iff in Hint.
  destruct (dateIn now date) as [d|] eqn:Hd; [|discriminate].
  destruct (Store.findFirst _ _) as [existing|] eqn:Hfind.
  - destruct (numericIn spent) as [v|] eqn:Hv; [|discriminate].
    intros H. injection H as <- <-. cbn.
    pose proof Hfind as Hfound.
    unfold Store.findFirst in Hfind. apply find_some in Hfind as [Hin Hkey].
    apply (entryHasKey_spec (planId, d)) in Hkey.
    exists d, v, (Store.setEntrySpent v now existing).
    unfold Store.returning.
    rewrite (filter_unique DailySpending.id (fun i e => DailySpending.id e =? i)
               entryHasId_spec existing _ Hei Hin).
    repeat (split; [reflexivity || assumption|]). split.
    + unfold Store.findMany.
      pose proof (filter_updateWhere Store.entryKey
                    (fun k => Store.entryHasKey k.1 k.2) DailySpending.id
                    (Store.setEntrySpent v now) existing
                    (Store.dailySpending s) entryHasKey_spec
                    (fun _ => eq_refl) Hei Hek Hin) as Hf.
      rewrite Hkey in Hf. exact Hf.
    + split; [reflexivity|]. split; [exact Hkey|].
      intros e' He'. rewrite Hfound in He'. injection He' as <-.
      split; [reflexivity|].
      unfold Store.updateWhere. apply length_map.
  - destruct (Store.insertEntry numericIn dateIn now planId date spent s)
      as [|rows s1] eqn:Hins; [discriminate|].
    intros H. injection H as <- <-.
    destruct (insertEntry_done _ _ _ _ _ _ _ Hu Hins)
      as (d' & v & Hd' & Hv & -> & Hrows & _ & _ & _ & Hfresh & _).
    rewrite Hd in Hd'. injection Hd' as <-.
    exists d, v. eexists.
    repeat (split; [reflexivity || assumption|]). rewrite Hrows.
    unfold Store.findMany. rewrite List.filter_app.
    rewrite (filter_absent Store.entryKey (fun k => Store.entryHasKey k.1 k.2)
               entryHasKey_spec (planId, d)) by exact Hfresh.
    cbn [List.filter app head]. unfold Store.entryHasKey at 1.
    cbn [DailySpending.planId DailySpending.date DailySpending.spent].
    rewrite Z.eqb_refl, String.eqb_refl. cbn [andb].
    repeat (split; [reflexivity|]). intros existing H. congruence.
Qed.

Lemma getOrCreatePlan_one_row now year month s result s' :
  Store.uniqueKeys s ->
  Store.getOrCreatePlan numericIn now year month s = Store.Done result s' ->
  exists p,
    Store.isInteger year && Store.isInteger month = true /\
    result = Some p /\
    Store.findMany (Store.planHasKey year month) (Store.spendingPlans s') = [p] /\
    (forall existing,
       Store.findFirst (Store.planHasKey year month) (Store.spendingPlans s)
         = Some existing ->
       p = existing /\ s' = s).
Proof.
  intros Hu. pose proof Hu as [Hpi Hpk Hei Hek].
  unfold Store.getOrCreatePlan.
  destruct (negb _) eqn:Hint; [discriminate|]. apply negb_false_iff in Hint.
  destruct (Store.findFirst _ _) as [existing|] eqn:Hfind.
  - intros H. injection H as <- <-.
    unfold Store.findFirst in Hfind. apply find_some in Hfind as [Hin Hkey].
    apply (planHasKey_spec (year, month)) in Hkey.
    exists existing. split; [exact Hint|]. split; [reflexivity|]. split.
    + unfold Store.findMany.
      pose proof (filter_unique Store.planKey (fun k => Store.planHasKey k.1 k.2)
                    planHasKey_spec existing _ Hpk Hin) as Hf.
      rewrite Hkey in Hf. exact Hf.
    + intros e' He'. injection He' as <-. split; reflexivity.
  - destruct (Store.insertPlan numericIn now year month "0" "0" s)
      as [|rows s1] eqn:Hins; [discriminate|].
    intros H. injection H as <- <-.
    destruct (insertPlan_done _ _ _ _ _ _ _ _ Hu Hins)
      as (total & saving & _ & _ & -> & Hrows & _ & _ & _ & Hfresh & _).
    eexists. split; [exact Hint|]. split; [reflexivity|]. rewrite Hrows.
    unfold Store.findMany. rewrite List.filter_app.
    rewrite (filter_absent Store.planKey (fun k => Store.planHasKey k.1 k.2)
               planHasKey_spec (year, month)) by exact Hfresh.
    cbn [List.filter app head]. unfold Store.planHasKey at 1.
    cbn [SpendingPlan.year SpendingPlan.month].
    rewrite !Z.eqb_refl. cbn [andb].
    split; [reflexivity|]. intros existing H. discriminate H.
Qed.

(** C6. The tables never hold two rows for one key.  The constraints of
    the schema hold in the empty store and after every server function.
    Two calls of [upsertDailySpending] with the same plan, date and amount
    that read the date alike leave exactly one row for that plan and date,
    if the first succeeds: the second succeeds as well and updates the row
    of the first, and the row holds the amount as the [numeric(12,2)]
    column converts it.  A second [getOrCreatePlan] for a year and month
    that has a plan returns that plan, adds no row and changes none. *)
Theorem no_duplicate_rows :
  Store.uniqueKeys Store.empty /\
  forall s, Store.uniqueKeys s ->
    (forall now year month result s',
       Store.getOrCreatePlan numericIn now year month s = Store.Done result s' ->
       Store.uniqueKeys s') /\
    (forall now planId totalAmount desiredSaving result s',
       Store.updatePlanSettings numericIn now planId totalAmount desiredSaving s
         = Store.Done result s' ->
       Store.uniqueKeys s') /\
    (forall now planId date spent result s',
       Store.upsertDailySpending numericIn dateIn now planId date spent s
         = Store.Done result s' ->
       Store.uniqueKeys s') /\
    (forall now1 now2 planId date v result1 s1,
       Store.upsertDailySpending numericIn dateIn now1 planId date v s
         = Store.Done result1 s1 ->
       dateIn now2 date = dateIn now1 date ->
       exists d v' e1 e2 s2,
         dateIn now1 date = Some d /\
         numericIn v = Some v' /\
         result1 = Some e1 /\
         Store.upsertDailySpending numericIn dateIn now2 planId date v s1
           = Store.Done (Some e2) s2 /\
         DailySpending.id e2 = DailySpending.id e1 /\
         Store.findMany (Store.entryHasKey planId d) (Store.dailySpending s2) = [e2] /\
         DailySpending.spent e2 = v' /\
         length (Store.dailySpending s2) = length (Store.dailySpending s1)) /\
    (forall now1 now2 year month result1 s1,
       Store.getOrCreatePlan numericIn now1 year month s = Store.Done result1 s1 ->
       exists p,
         result1 = Some p /\
         Store.getOrCreatePlan numericIn now2 year month s1 = Store.Done (Some p) s1 /\
         Store.findMany (Store.planHasKey year month) (Store.spendingPlans s1) = [p]).
Proof.
  split; [apply uniqueKeys_empty|].
  intros s Hu.
  split; [intros; eapply getOrCreatePlan_unique; eassumption|].
  split; [intros; eapply updatePlanSettings_unique; eassumption|].
  split; [intros; eapply upsertDailySpending_unique; eassumption|].
  split.
  - intros now1 now2 planId date v result1 s1 H1 Hdate.
    pose proof (upsertDailySpending_unique _ _ _ _ _ _ _ Hu H1) as Hu1.
    destruct (upsertDailySpending_one_row _ _ _ _ _ _ _ Hu H1)
      as (d & v' & e1 & Hint & Hd & Hv & -> & Hone1 & _ & _ & _).
    assert (Hfind : Store.findFirst (Store.entryHasKey planId d)
                      (Store.dailySpending s1) = Some e1).
    { unfold Store.findFirst. rewrite find_filter_head.
      unfold Store.findMany in Hone1. rewrite Hone1. reflexivity. }
    destruct (Store.upsertDailySpending numericIn dateIn now2 planId date v s1)
      as [err | result2 s2] eqn:H2.
    { unfold Store.upsertDailySpending in H2.
      rewrite Hint, Hdate, Hd, Hfind, Hv in H2. discriminate H2. }
    destruct (upsertDailySpending_one_row _ _ _ _ _ _ _ Hu1 H2)
      as (d2 & v2 & e2 & _ & Hd2 & Hv2 & -> & Hone2 & Hspent & _ & Hsame).
    rewrite Hdate, Hd in Hd2. injection Hd2 as <-.
    rewrite Hv in Hv2. injection Hv2 as <-.
    destruct (Hsame e1 Hfind) as [Hid Hlen].
    exists d, v', e1, e2, s2.
    repeat (split; [assumption || reflexivity|]). exact Hlen.
  - intros now1 now2 year month result1 s1 H1.
    pose proof (getOrCreatePlan_unique _ _ _ _ _ _ Hu H1) as Hu1.
    destruct (getOrCreatePlan_one_row _ _ _ _ _ _ Hu H1) as (p & Hint & -> & Hone & _).
    exists p. split; [reflexivity|]. split; [|exact Hone].
    unfold Store.getOrCreatePlan.
    assert (Hfind : Store.findFirst (Store.planHasKey year month)
                      (Store.spendingPlans s1) = Some p).
    { unfold Store.findFirst. rewrite find_filter_head.
      unfold Store.findMany in Hone. rewrite Hone. reflexivity. }
    rewrite Hint, Hfind. reflexivity.
Qed.

(** ** The frame of [updatePlanSettings] *)

(** C9. [updatePlanSettings] changes [totalAmount], [desiredSaving] and
    [updatedAt] of the plan whose [id] is [planId], and nothing else.  When
    it succeeds, both amounts have been converted by the column; the plan of
    that [id] keeps its [id], [year], [month] and [createdAt] and holds the
    converted amounts and the time of the call; at most one plan has that
    [id]; every other plan stays as it is and where it is; and the table of
    daily entries and both sequences are untouched.  It succeeds exactly
    when [planId] is an integer of the column and both amounts convert;
    otherwise the statement fails and nothing is changed. *)
Theorem updatePlanSettings_frame (now planId : Z) (totalAmount desiredSaving : string)
    (s : Store.db) :
  Store.uniqueKeys s ->
  (forall result s',
     Store.updatePlanSettings numericIn now planId totalAmount desiredSaving s
       = Store.Done result s' ->
     exists total saving,
       numericIn totalAmount = Some total /\
       numericIn desiredSaving = Some saving /\
       Store.dailySpending s' = Store.dailySpending s /\
       Store.spendingPlansSeq s' = Store.spendingPlansSeq s /\
       Store.dailySpendingSeq s' = Store.dailySpendingSeq s /\
       length (Store.spendingPlans s') = length (Store.spendingPlans s) /\
       (forall (i : nat) p,
          Store.spendingPlans s !! i = Some p ->
          exists p',
            Store.spendingPlans s' !! i = Some p' /\
            (SpendingPlan.id p <> planId -> p' = p) /\
            (SpendingPlan.id p = planId ->
             result = Some p' /\
             SpendingPlan.id p' = SpendingPlan.id p /\
             SpendingPlan.year p' = SpendingPlan.year p /\
             SpendingPlan.month p' = SpendingPlan.month p /\
             SpendingPlan.createdAt p' = SpendingPlan.createdAt p /\
             SpendingPlan.totalAmount p' = total /\
             SpendingPlan.desiredSaving p' = saving /\
             SpendingPlan.updatedAt p' = now)) /\
       (forall (i j : nat) p q,
          Store.spendingPlans s !! i = Some p ->
          Store.spendingPlans s !! j = Some q ->
          SpendingPlan.id p = planId -> SpendingPlan.id q = planId -> i = j)) /\
  ((exists result s',
      Store.updatePlanSettings numericIn now planId totalAmount desiredSaving s
        = Store.Done result s') <->
   Store.isInteger planId = true /\
   (exists total, numericIn totalAmount = Some total) /\
   (exists saving, numericIn desiredSaving = Some saving)).
Proof.
  intros [Hpi Hpk Hei Hek]. split.
  - intros result s'. unfold Store.updatePlanSettings.
    destruct (negb _); [discriminate|].
    destruct (numericIn totalAmount) as [total|]; [|discriminate].
    destruct (numericIn desiredSaving) as [saving|]; [|discriminate].
    intros H. injection H as <- <-. exists total, saving. cbn.
    repeat (split; [reflexivity|]).
    split; [unfold Store.updateWhere; apply length_map|].
    split.
    + intros i p Hp. rewrite lookup_updateWhere, Hp. cbn.
      destruct (Z.eqb_spec (SpendingPlan.id p) planId) as [Heq | Hne].
      * eexists. split; [reflexivity|]. split; [intros Hc; contradiction|].
        intros _. split; [|repeat split].
        unfold Store.returning.
        apply list_elem_of_lookup_2, list_elem_of_In in Hp.
        pose proof (filter_unique SpendingPlan.id (fun i p => SpendingPlan.id p =? i)
                      planHasId_spec p _ Hpi Hp) as Hf.
        cbn in Hf. rewrite Heq in Hf. rewrite Hf. reflexivity.
      * exists p. split; [reflexivity|]. split; [reflexivity|].
        intros Hc. contradiction.
    + intros i j p q Hp Hq Hip Hiq.
      apply (NoDup_lookup (List.map SpendingPlan.id (Store.spendingPlans s)) i j planId);
        [exact Hpi | |]; rewrite list_lookup_fmap.
      * rewrite Hp. simpl. f_equal. exact Hip.
      * rewrite Hq. simpl. f_equal. exact Hiq.
  - unfold Store.updatePlanSettings. split.
    + intros (result & s' & H).
      destruct (Store.isInteger planId); [|discriminate H].
      destruct (numericIn totalAmount) as [total|]; [|discriminate H].
      destruct (numericIn desiredSaving) as [saving|]; [|discriminate H].
      split; [reflexivity|]. split; eexists; reflexivity.
    + intros (-> & (total & ->) & (saving & ->)). eexists _, _. reflexivity.
Qed.

End Statements.

Lemma no_duplicate_rows_witness :
  exists p s0 e1 s1 e2 s2,
    Store.getOrCreatePlan Postgres.numeric_12_2 10 2025 3 Store.empty
      = Store.Done (Some p) s0 /\
    Store.upsertDailySpending Postgres.numeric_12_2 Postgres.date
      20 (SpendingPlan.id p) "2025-04-01" "50" s0 = Store.Done (Some e1) s1 /\
    Store.upsertDailySpending Postgres.numeric_12_2 Postgres.date
      30 (SpendingPlan.id p) "2025-04-01" "50" s1 = Store.Done (Some e2) s2 /\
    Store.findMany (Store.entryHasKey (SpendingPlan.id p) "2025-04-01")
      (Store.dailySpending s2) = [e2] /\
    DailySpending.spent e2 = "50.00"%string.
Proof.
  destruct (no_duplicate_rows Postgres.numeric_12_2 Postgres.date) as [Hempty Hall].
  destruct (Hall Store.empty Hempty) as (Hcreate & _).
  set (p := SpendingPlan.mk 1 2025 3 "0.00" "0.00" 10 10).
  set (s0 := Store.mkDb [p] [] 2 1).
  assert (H0 : Store.getOrCreatePlan Postgres.numeric_12_2 10 2025 3 Store.empty
               = Store.Done (Some p) s0) by (vm_compute; reflexivity).
  pose proof (Hcreate _ _ _ _ _ H0) as Hu0.
  destruct (Hall s0 Hu0) as (_ & _ & _ & Hupsert & _).
  set (e := DailySpending.mk 1 1 "2025-04-01" "50.00" 20 20).
  set (s1 := Store.mkDb [p] [e] 2 2).
  assert (H1 : Store.upsertDailySpending Postgres.numeric_12_2 Postgres.date
                 20 1 "2025-04-01" "50" s0
               = Store.Done (Some e) s1) by (vm_compute; reflexivity).
  destruct (Hupsert 20 30 1 "2025-04-01"%string "50"%string _ _ H1 eq_refl)
    as (d & v' & e1 & e2 & s2 & Hd & Hv & He1 & H2 & _ & Hone & Hspent & _).
  injection He1 as <-.
  assert (d = "2025-04-01"%string) as ->
    by (vm_compute in Hd; injection Hd as <-; reflexivity).
  assert (v' = "50.00"%string) as ->
    by (vm_compute in Hv; injection Hv as <-; reflexivity).
  exists p, s0, e, s1, e2, s2.
  split; [exact H0|]. split; [exact H1|]. split; [exact H2|].
  split; [exact Hone | exact Hspent].
Defined.

(** The column gives ['50.00'] for ['50']: after two upserts of ['50'] the
    one row of the day holds ['50.00'].  And a second [getOrCreatePlan]
    updates nothing: the plan keeps the time of its creation as the time of
    its last update. *)
Lemma upsert_holds_the_converted_amount :
  let p := SpendingPlan.mk 1 2025 3 "0.00" "0.00" 10 10 in
  let s0 := Store.mkDb [p] [] 2 1 in
  exists e1 s1 e2 s2,
    Store.upsertDailySpending Postgres.numeric_12_2 Postgres.date
      20 1 "2025-04-01" "50" s0 = Store.Done (Some e1) s1 /\
    Store.upsertDailySpending Postgres.numeric_12_2 Postgres.date
      30 1 "2025-04-01" "50" s1 = Store.Done (Some e2) s2 /\
    Store.dailySpending s2 = [e2] /\
    DailySpending.spent e2 = "50.00"%string /\
    DailySpending.spent e2 <> "50"%string /\
    Store.getOrCreatePlan Postgres.numeric_12_2 10 2025 3 Store.empty
      = Store.Done (Some p) s0 /\
    Store.getOrCreatePlan Postgres.numeric_12_2 40 2025 3 s0 = Store.Done (Some p) s0 /\
    SpendingPlan.updatedAt p = 10.
Proof.
  intros p s0. eexists _, _, _, _.
  split; [vm_compute; reflexivity|].
  split; [vm_compute; reflexivity|].
  split; [reflexivity|].
  split; [reflexivity|].
  split; [discriminate|].
  split; [vm_compute; reflexivity|].
  split; [vm_compute; reflexivity|].
  reflexivity.
Qed.

Lemma updatePlanSettings_frame_witness :
  let p1 := SpendingPlan.mk 1 2025 3 "0.00" "0.00" 10 10 in
  let p2 := SpendingPlan.mk 2 2025 4 "2500.00" "100.00" 11 12 in
  let e := DailySpending.mk 1 1 "2025-04-01" "50.00" 20 20 in
  let s := Store.mkDb [p1; p2] [e] 3 2 in
  exists result s',
    Store.updatePlanSettings Postgres.numeric_12_2 40 1 "3000" "500" s
      = Store.Done result s' /\
    Store.dailySpending s' = [e] /\
    Store.spendingPlans s' !! 1%nat = Some p2.
Proof.
  intros p1 p2 e s.
  assert (Hu : Store.uniqueKeys s) by (split; cbn; compute_done).
  destruct (updatePlanSettings_frame Postgres.numeric_12_2 40 1 "3000" "500" s Hu)
    as [Hframe [_ Hdone]].
  destruct Hdone as (result & s' & H).
  { split; [reflexivity|]. split; eexists; vm_compute; reflexivity. }
  destruct (Hframe result s' H)
    as (total & saving & _ & _ & Hdaily & _ & _ & _ & Hrows & _).
  exists result, s'. split; [exact H|]. split; [exact Hdaily|].
  destruct (Hrows 1%nat p2 eq_refl) as (p' & Hp' & Hother & _).
  rewrite Hp'. f_equal. apply Hother. discriminate.
Defined.
